(** * Risk scoring, fraud detection and registration guard of the
      event-management API

    A shallow embedding of the security services of the repository:
    - [AuditLogService]       (src/services/auditLogService.js),
    - [FraudDetectionService] (fraudDetectionService.js),
    - [EventSecurityService]  (eventSecurityService.js),
    and the properties their specification states about them.

    JavaScript numbers that carry scores are rationals ([Q]): every score the
    code builds is a multiple of 0.5 below 16, which a double holds exactly.
    Instants are integer milliseconds since the epoch ([Z]), and a call is
    given one reading [now] of the clock.  A property that may be absent on
    an object ([undefined]) is an [option].  The database, mongoose and its
    models are collaborators: their calls are the fields of a record, each
    returning a value or failing, and the services are functions of it.
    What the repository itself decides is part of the embedding: a name
    that a module never binds, a class that is called without [new].

    The callers of these services are embedded after them:
    [ThreatIntelligenceService], [SystemMonitoringService], [AlertService]
    and the handler of the threat intelligence endpoint. *)

From Stdlib Require Import ZArith QArith Qminmax Lqa Lia List Bool.
From Stdlib Require Import Ascii String DecimalString DecimalZ.
From stdpp Require Import base option list gmap sets strings sorting.

Local Open Scope Z_scope.

(** ** JavaScript values used by the services *)

(** [a < b] on numbers. *)
Definition Qlt_bool (a b : Q) : bool := negb (Qle_bool b a).

(** [Boolean(s)] for a possibly missing string: [undefined] and the empty
    string are falsy. *)
Definition truthy (v : option string) : bool :=
  match v with
  | Some s => negb (String.eqb s "")
  | None => false
  end.

(** [new Set(values).size]. *)
Definition Set_size (values : list (option string)) : nat :=
  size (list_to_set values : gset (option string)).

(** ** Data model *)

Inductive RiskLevel := LOW | MEDIUM | HIGH | CRITICAL.

Record ContextualRisks := {
  multipleDevices : bool;
  geographicalInconsistency : bool
}.

(** The [details] payload of an audit document ([Mixed] in the schema): the
    request context read by the risk scorer ([RequestContext None None] is
    the schema's default [{}]), or one of the reports the services write. *)
Inductive Details :=
| RequestContext (location userAgent : option string)
| RiskAssessmentReport (riskScore : Q) (riskLevel : RiskLevel)
    (contextualRisks : ContextualRisks) (suspiciousActivitiesCount : nat)
| IpFraudReport (suspiciousIPs : list (option string)) (totalSuspiciousIPs : nat)
| RateLimitReport (eventId : string) (registrationCount : nat)
| RegistrationRiskReport (eventId : string) (riskScore : Q) (riskLevel : RiskLevel).

(** [details?.location] and [details?.userAgent]. *)
Definition details_location (d : option Details) : option string :=
  match d with
  | Some (RequestContext location _) => location
  | _ => None
  end.

Definition details_userAgent (d : option Details) : option string :=
  match d with
  | Some (RequestContext _ userAgent) => userAgent
  | _ => None
  end.

(** A document of the [audit_logs] collection. *)
Record AuditLog := {
  log_userId : option string;
  log_username : option string;
  log_email : option string;
  log_role : option string;
  log_action : option string;
  log_details : option Details;
  log_timestamp : Z;
  log_ipAddress : option string;
  log_userAgent : option string;
  log_success : bool
}.

Record User := {
  createdAt : Z;
  registeredEvents : list string;
  contactInfo_ipAddress : option string
}.

Record Event := {
  participants : list string;
  capacity : option Z;
  event_createdAt : Z
}.

(** [log.details?.location] and [log.details?.userAgent] of a document. *)
Definition locationOf (log : AuditLog) : option string :=
  details_location (log_details log).

Definition userAgentOf (log : AuditLog) : option string :=
  details_userAgent (log_details log).

Definition action_is (a : string) (log : AuditLog) : bool :=
  match log_action log with
  | Some b => String.eqb b a
  | None => false
  end.

(** ** Effects: console output, and a value returned or an error thrown *)

Inductive JsError :=
| TypeError (message : string)
| ReferenceError (message : string)
| ValidationError (message : string)
| StoreError (message : string).

Inductive result (A : Type) :=
| Ok (value : A)
| Err (error : JsError).
Arguments Ok {A} value.
Arguments Err {A} error.

(** A computation yields the lines that it and the calls it started wrote
    with [console.error], and its outcome; an [async] function that rejects
    is one that throws. *)
Definition M (A : Type) : Type := list (string * JsError) * result A.

Definition ret {A} (a : A) : M A := ([], Ok a).
Definition throw {A} (e : JsError) : M A := ([], Err e).
Definition lift {A} (r : result A) : M A := ([], r).

Definition bind {A B} (m : M A) (k : A -> M B) : M B :=
  match m with
  | (console, Ok a) => let '(console', r) := k a in (console ++ console', r)
  | (console, Err e) => (console, Err e)
  end.

Notation "'let*' x ':=' m 'in' k" := (bind m (fun x => k))
  (at level 10, x name, m at level 100, k at level 200).

(** [try { body } catch (error) { console.error(label, error); throw error; }] *)
Definition rethrow {A} (label : string) (body : M A) : M A :=
  match body with
  | (console, Err e) => (console ++ [(label, e)], Err e)
  | done => done
  end.

(** ** Promise.all

    Every call of the array has been started when [Promise.all] receives
    its promise.  A call that returned or threw before its first [await]
    hands over a promise that is settled already ([Settled]); a call that
    awaits the store or the network settles later ([Pending]).  Each call
    runs to its end whatever the others do, so the console gets the lines of
    all of them: those of the settled calls first, those of the pending ones
    as they finish, which may be after the line of the [catch] around the
    [Promise.all]; the model keeps every line and not that order.

    [Promise.all] fulfils with the values when every call fulfils.
    Otherwise it rejects with the rejection it hears of first: that of the
    first settled call that threw, if there is one; else that of the pending
    call that fails first in time.  The timing of the store is no part of
    the model: among pending calls the order of the array stands in for it,
    and no property below depends on which of several late rejections is
    re-thrown. *)
Inductive Promise (A : Type) :=
| Settled (call : M A)
| Pending (call : M A).
Arguments Settled {A} call.
Arguments Pending {A} call.

Definition settlement {A} (promise : Promise A) : M A :=
  match promise with
  | Settled call | Pending call => call
  end.

Definition linesAtOnce {A} (promise : Promise A) : list (string * JsError) :=
  match promise with
  | Settled call => fst call
  | Pending _ => []
  end.

Definition linesLater {A} (promise : Promise A) : list (string * JsError) :=
  match promise with
  | Settled _ => []
  | Pending call => fst call
  end.

Definition rejectedAtOnce {A} (promise : Promise A) : option JsError :=
  match promise with
  | Settled (_, Err e) => Some e
  | _ => None
  end.

Definition Promise_all2 {A B} (a : Promise A) (b : Promise B) : M (A * B) :=
  (linesAtOnce a ++ linesAtOnce b ++ linesLater a ++ linesLater b,
   match rejectedAtOnce a, rejectedAtOnce b with
   | Some e, _ | None, Some e => Err e
   | None, None =>
       match snd (settlement a), snd (settlement b) with
       | Ok x, Ok y => Ok (x, y)
       | Err e, _ | Ok _, Err e => Err e
       end
   end).

Definition Promise_all3 {A B C} (a : Promise A) (b : Promise B) (c : Promise C)
  : M (A * B * C) :=
  (linesAtOnce a ++ linesAtOnce b ++ linesAtOnce c
   ++ linesLater a ++ linesLater b ++ linesLater c,
   match rejectedAtOnce a, rejectedAtOnce b, rejectedAtOnce c with
   | Some e, _, _ | None, Some e, _ | None, None, Some e => Err e
   | None, None, None =>
       match snd (settlement a), snd (settlement b), snd (settlement c) with
       | Ok x, Ok y, Ok z => Ok (x, y, z)
       | Err e, _, _ | Ok _, Err e, _ | Ok _, Ok _, Err e => Err e
       end
   end).

(** [try { body } catch (error) { console.error(label, error); }]: the
    function falls off its end and returns [undefined]. *)
Definition swallow {A} (label : string) (body : M A) : M (option A) :=
  match body with
  | (console, Err e) => (console ++ [(label, e)], Ok None)
  | (console, Ok a) => (console, Ok (Some a))
  end.

(** ** The document store and the ODM, as the services call them *)

(** The filters that the services pass to [AuditLogService.getLogs]. *)
Record LogFilters := {
  filter_userId : option string;      (* 'user.id' *)
  filter_since : Z;                   (* timestamp: { $gte } *)
  filter_success : option bool        (* success *)
}.

Inductive SortOrder := TimestampDescending | TimestampAscending.

(** The second argument of [getLogs]. *)
Record LogOptions := {
  opt_page : option nat;
  opt_limit : option nat;
  opt_sort : option SortOrder;
  opt_group : option string           (* $group: the grouping key *)
}.

(** What [paginate] of mongoose-paginate-v2 resolves to: a plain object
    holding the page of documents and the counters. *)
Record Page := {
  docs : list AuditLog;
  totalDocs : nat
}.

(** One group of the pipeline of [detectSuspiciousRegistrations]: an address
    and the participants of the event that registered from it. *)
Record RegistrationGroup := {
  group_ipAddress : option string;    (* _id: '$participantDetails.contactInfo.ipAddress' *)
  registrationCount : nat;            (* { $sum: 1 } *)
  group_users : list string           (* { $addToSet: '$participantDetails._id' } *)
}.

(** The calls of the services on the models of mongoose.  Each may fail;
    nothing is assumed of what they return beyond its shape. *)
Record Collaborators := {
  (* whether mongoose casts this text to an ObjectId, as it does with the
     value of a path of type Schema.Types.ObjectId *)
  castsToObjectId : string -> bool;
  User_findById : string -> result (option User);
  Event_findById : string -> result (option Event);
  (* Event.countDocuments({ participants, createdAt: { $gte } }) *)
  Event_countDocuments : string -> Z -> result nat;
  (* Event.aggregate([...]) of detectSuspiciousRegistrations: of the event
     with this _id, the groups of more than 5 registrations from one address *)
  Event_aggregateRegistrationsByIp : string -> result (list RegistrationGroup);
  (* AuditLog.paginate(filters, { page, limit, sort }) *)
  AuditLog_paginate : LogFilters -> nat -> nat -> SortOrder -> result Page;
  (* the write of a validated audit document *)
  AuditLog_insert : AuditLog -> result unit
}.

(** [date.setHours(date.getHours() - 24)]: 24 hours of wall-clock time, here
    without a change of the zone's offset in between. *)
Definition twentyFourHoursAgo (now : Z) : Z := now - 24 * 3600 * 1000.

(** ** AuditLogService *)

Module AuditLogService.

(** The [enum] of the schema's [action] path. *)
Definition actionEnum : list string :=
  [ "LOGIN_ATTEMPT"; "LOGIN_SUCCESS"; "LOGIN_FAILURE"; "LOGOUT";
    "PASSWORD_CHANGE"; "PASSWORD_RESET";
    "USER_REGISTRATION"; "USER_PROFILE_UPDATE"; "USER_ROLE_CHANGE";
    "2FA_ENABLE"; "2FA_DISABLE"; "2FA_VERIFY";
    "OAUTH_LOGIN";
    "EVENT_CREATE"; "EVENT_UPDATE"; "EVENT_DELETE"; "EVENT_REGISTRATION";
    "EVENT_CANCELLATION";
    "API_ACCESS"; "PERMISSION_DENIED"; "SYSTEM_ERROR" ]%string.

(** Schema validation run by [save]: [user.id] is required and is an
    ObjectId, [action] is required and belongs to the enum.  The error names
    the first path that fails. *)
Definition validate (db : Collaborators) (doc : AuditLog) : result unit :=
  match log_userId doc with
  | None => Err (ValidationError "user.id is required")
  | Some id =>
      if castsToObjectId db id
      then match log_action doc with
           | None => Err (ValidationError "action is required")
           | Some a =>
               if existsb (String.eqb a) actionEnum then Ok tt
               else Err (ValidationError "action is not a valid enum value")
           end
      else Err (ValidationError "user.id: Cast to ObjectId failed")
  end.

Definition save (db : Collaborators) (doc : AuditLog) : result unit :=
  match validate db doc with
  | Ok _ => AuditLog_insert db doc
  | Err e => Err e
  end.

(** The argument of [log]. *)
Record Options := {
  userId : option string;
  username : option string;
  email : option string;
  role : option string;
  action : option string;
  details : option Details;
  ipAddress : option string;
  userAgent : option string;
  success : option bool
}.

(** [new AuditLog({ user: { id: userId, ... }, action, details, ... })], with
    the schema's default for [timestamp]. *)
Definition newAuditLog (now : Z) (o : Options) : AuditLog :=
  {| log_userId := userId o;
     log_username := username o;
     log_email := email o;
     log_role := role o;
     log_action := action o;
     log_details := Some (default (RequestContext None None) (details o));
     log_timestamp := now;
     log_ipAddress := ipAddress o;
     log_userAgent := userAgent o;
     log_success := default true (success o) |}.

(** [log(options)]; [None] is a call with [undefined], whose destructuring
    throws inside the [try]. *)
Definition log (db : Collaborators) (now : Z) (options : option Options)
  : M (option AuditLog) :=
  swallow "Audit log error:"
    (match options with
     | None => throw (TypeError "Cannot destructure 'options' as it is undefined")
     | Some o =>
         let auditLog := newAuditLog now o in
         let* _ := lift (save db auditLog) in
         ret auditLog
     end).

(** [getLogs(filters, options)]: only [page], [limit] and [sort] are read
    from [options]. *)
Definition getLogs (db : Collaborators) (filters : LogFilters) (options : LogOptions)
  : M Page :=
  let page := default 1%nat (opt_page options) in
  let limit := default 50%nat (opt_limit options) in
  let sort := default TimestampDescending (opt_sort options) in
  rethrow "Error retrieving audit logs:"
    (lift (AuditLog_paginate db filters page limit sort)).

Definition noOptions : LogOptions :=
  {| opt_page := None; opt_limit := None; opt_sort := None; opt_group := None |}.

End AuditLogService.

(** ** FraudDetectionService *)

Module FraudDetectionService.

(** [(now - user.createdAt) / (1000 * 3600 * 24)] *)
Definition accountAgeInDays (now : Z) (user : User) : Q :=
  (inject_Z (now - createdAt user) / inject_Z (1000 * 3600 * 24))%Q.

Definition failedLogins (activities : list AuditLog) : list AuditLog :=
  List.filter (fun log => action_is "LOGIN_ATTEMPT" log && negb (log_success log))
    activities.

Definition uniqueLoginLocations (activities : list AuditLog) : list (option string) :=
  List.filter truthy (List.map locationOf activities).

Definition uniqueDevices (activities : list AuditLog) : list (option string) :=
  List.filter truthy (List.map userAgentOf activities).

Definition loginTimestamps (activities : list AuditLog) : list Z :=
  List.map log_timestamp (List.filter (action_is "LOGIN_ATTEMPT") activities).

(** [loginTimestamps.map((time, index) =>
       index > 0 ? Math.abs(time - loginTimestamps[index - 1]) : 0)];
    an index outside the array reads [undefined] and the difference is
    [NaN] ([None]). *)
Definition timeDifferences (loginTimestamps : list Z) : list (option Z) :=
  imap (fun index time =>
          if (0 <? index)%nat
          then match loginTimestamps !! (index - 1)%nat with
               | Some previous => Some (Z.abs (time - previous))
               | None => None
               end
          else Some 0)
       loginTimestamps.

(** [diff < 60000 || diff > 86400000]; both comparisons are false on [NaN]. *)
Definition unusualGap (diff : option Z) : bool :=
  match diff with
  | Some d => (d <? 60000) || (86400000 <? d)
  | None => false
  end.

Definition irregularTimePatterns (activities : list AuditLog) : list (option Z) :=
  List.filter unusualGap (timeDifferences (loginTimestamps activities)).

Definition calculateRiskScore (now : Z) (user : User) (activities : list AuditLog) : Q :=
  let riskScore := 0%Q in
  (* Account age factor *)
  let accountAgeInDays := accountAgeInDays now user in
  let riskScore := if Qlt_bool accountAgeInDays 30 then (riskScore + 3)%Q else riskScore in
  let riskScore := if Qlt_bool accountAgeInDays 60 then (riskScore + 2)%Q else riskScore in
  (* Login attempt analysis *)
  let riskScore :=
    (riskScore + Qmin (inject_Z (Z.of_nat (length (failedLogins activities))) * (1 # 2)) 2)%Q in
  (* Geolocation inconsistency *)
  let riskScore :=
    if (3 <? Set_size (uniqueLoginLocations activities))%nat
    then (riskScore + 1)%Q else riskScore in
  (* Device variation *)
  let riskScore :=
    if (3 <? Set_size (uniqueDevices activities))%nat
    then (riskScore + 1)%Q else riskScore in
  (* Time-based anomalies *)
  let riskScore :=
    if (2 <? length (irregularTimePatterns activities))%nat
    then (riskScore + 1)%Q else riskScore in
  (* Normalize risk score *)
  Qmin (Qmax riskScore 0) 10.

Definition determineRiskLevel (riskScore : Q) : RiskLevel :=
  if Qle_bool riskScore 2 then LOW
  else if Qle_bool riskScore 5 then MEDIUM
  else if Qle_bool riskScore 7 then HIGH
  else CRITICAL.

Record UserActivityReport := {
  report_userId : string;
  report_riskScore : Q;
  report_riskLevel : RiskLevel;
  report_suspiciousActivities : list AuditLog;
  report_contextualRisks : ContextualRisks
}.

(** The [contextualRisks] object of [detectSuspiciousUserActivity]. *)
Definition contextualRisks (docs : list AuditLog) : ContextualRisks :=
  {| multipleDevices :=
       (2 <? Set_size (List.map userAgentOf docs))%nat;
     geographicalInconsistency :=
       (2 <? Set_size (List.map locationOf docs))%nat |}.

(** [mongoose.Types.ObjectId(userId)]: mongoose 8 (package.json asks for
    ^8.8.4) exports the class of bson, and a class that is called without
    [new] throws. *)
Definition mongoose_Types_ObjectId (id : string) : result string :=
  Err (TypeError "Class constructor ObjectId cannot be invoked without 'new'").

Definition detectSuspiciousUserActivity (db : Collaborators) (now : Z) (userId : string)
  : M UserActivityReport :=
  rethrow "Advanced suspicious activity detection error:"
    (* the array of the [Promise.all] is built first: [User.findById] makes a
       query that nothing has run yet, then the filters of [getLogs] are
       evaluated, and with them the cast *)
    (let* id := lift (mongoose_Types_ObjectId userId) in
     let* fetched :=
       Promise_all2
         (Pending (lift (User_findById db userId)))
         (Pending
            (AuditLogService.getLogs db
               {| filter_userId := Some id;
                  filter_since := twentyFourHoursAgo now;
                  filter_success := None |}
               AuditLogService.noOptions)) in
     let '(user, suspiciousActivities) := fetched in
     match user with
     | None => throw (TypeError "Cannot read properties of null (reading 'createdAt')")
     | Some user =>
         let riskScore := calculateRiskScore now user (docs suspiciousActivities) in
         let riskLevel := determineRiskLevel riskScore in
         let contextualRisks := contextualRisks (docs suspiciousActivities) in
         let* _ :=
           AuditLogService.log db now
             (Some {| AuditLogService.userId := Some userId;
                      AuditLogService.username := None;
                      AuditLogService.email := None;
                      AuditLogService.role := None;
                      AuditLogService.action := Some "ADVANCED_RISK_ASSESSMENT"%string;
                      AuditLogService.details :=
                        Some (RiskAssessmentReport riskScore riskLevel contextualRisks
                                (length (docs suspiciousActivities)));
                      AuditLogService.ipAddress := None;
                      AuditLogService.userAgent := None;
                      AuditLogService.success := None |}) in
         ret {| report_userId := userId;
                report_riskScore := riskScore;
                report_riskLevel := riskLevel;
                report_suspiciousActivities := docs suspiciousActivities;
                report_contextualRisks := contextualRisks |}
     end).

(** One group of the aggregation that [detectIPBasedFraud] asks for. *)
Record IpGroup := {
  ip_id : option string;              (* _id: '$ipAddress' *)
  failedAttempts : nat;               (* { $sum: 1 } *)
  uniqueUsers : list string;          (* { $addToSet: '$user.id' } *)
  actions : list string               (* { $push: '$action' } *)
}.

Definition isSuspiciousIP (ip : IpGroup) : bool :=
  (10 <? failedAttempts ip)%nat || (3 <? length (uniqueUsers ip))%nat.

(** [page.filter(predicate)] on the object that [getLogs] resolves to: the
    page object of [paginate] is not an array and has no [filter] method, so
    the call throws before the predicate is applied to anything. *)
Definition Page_filter (page : Page) (predicate : IpGroup -> bool) : result (list IpGroup) :=
  Err (TypeError "ipFraudDetection.filter is not a function").

Record IpFraudResult := {
  suspiciousIPs : list IpGroup;
  ipFraud_timestamp : Z
}.

Definition detectIPBasedFraud (db : Collaborators) (now : Z) : M IpFraudResult :=
  rethrow "IP-based fraud detection error:"
    (let* ipFraudDetection :=
       AuditLogService.getLogs db
         {| filter_userId := None;
            filter_since := twentyFourHoursAgo now;
            filter_success := Some false |}
         {| opt_page := None; opt_limit := None; opt_sort := None;
            opt_group := Some "$ipAddress"%string |} in
     let* suspiciousIPs := lift (Page_filter ipFraudDetection isSuspiciousIP) in
     let* _ :=
       AuditLogService.log db now
         (Some {| AuditLogService.userId := None;
                  AuditLogService.username := None;
                  AuditLogService.email := None;
                  AuditLogService.role := None;
                  AuditLogService.action := Some "IP_FRAUD_DETECTION"%string;
                  AuditLogService.details :=
                    Some (IpFraudReport (List.map ip_id suspiciousIPs) (length suspiciousIPs));
                  AuditLogService.ipAddress := None;
                  AuditLogService.userAgent := None;
                  AuditLogService.success := None |}) in
     ret {| suspiciousIPs := suspiciousIPs; ipFraud_timestamp := now |}).

End FraudDetectionService.

(** ** SHA-256 (FIPS 180-4), as Node's [crypto.createHash('sha256')] computes it *)

Module SHA256.

Definition wrap32 (x : Z) : Z := x mod 2 ^ 32.
Definition add32 (x y : Z) : Z := wrap32 (x + y).
Definition rotr (n x : Z) : Z :=
  Z.lor (Z.shiftr x n) (wrap32 (Z.shiftl x (32 - n))).
Definition not32 (x : Z) : Z := Z.lxor x 0xffffffff.

Definition Ch (x y z : Z) : Z := Z.lxor (Z.land x y) (Z.land (not32 x) z).
Definition Maj (x y z : Z) : Z :=
  Z.lxor (Z.lxor (Z.land x y) (Z.land x z)) (Z.land y z).
Definition Sigma0 (x : Z) : Z := Z.lxor (Z.lxor (rotr 2 x) (rotr 13 x)) (rotr 22 x).
Definition Sigma1 (x : Z) : Z := Z.lxor (Z.lxor (rotr 6 x) (rotr 11 x)) (rotr 25 x).
Definition sigma0 (x : Z) : Z := Z.lxor (Z.lxor (rotr 7 x) (rotr 18 x)) (Z.shiftr x 3).
Definition sigma1 (x : Z) : Z := Z.lxor (Z.lxor (rotr 17 x) (rotr 19 x)) (Z.shiftr x 10).

(** The first 64 primes. *)
Definition is_prime (n : Z) : bool :=
  (1 <? n) && forallb (fun d => negb (n mod Z.of_nat d =? 0)) (seq 2 (Z.to_nat n - 2)).

Definition primes : list Z := List.filter is_prime (List.map Z.of_nat (seq 2 310)).

(** The integer cube root, one bit after the other from bit [bits - 1] down. *)
Fixpoint cube_root_from (bits : nat) (n root : Z) : Z :=
  match bits with
  | O => root
  | S bits =>
      let larger := root + 2 ^ Z.of_nat bits in
      cube_root_from bits n (if larger * larger * larger <=? n then larger else root)
  end.

(** The round constants: the first 32 bits of the fractional parts of the
    cube roots of the first 64 primes. *)
Definition K : list Z :=
  Eval vm_compute in List.map (fun p => wrap32 (cube_root_from 40 (p * 2 ^ 96) 0)) primes.

(** The initial hash value: the same of the square roots of the first 8. *)
Definition H0 : list Z :=
  Eval vm_compute in List.map (fun p => wrap32 (Z.sqrt (p * 2 ^ 64))) (List.firstn 8 primes).

(** Padding: a 1 bit, zeros up to 56 modulo 64 bytes, the bit length on 8 bytes. *)
Definition be_bytes (count : nat) (x : Z) : list Z :=
  List.map (fun i => Z.shiftr x (8 * Z.of_nat i) mod 256) (List.rev (List.seq 0 count)).

Definition pad (message : list Z) : list Z :=
  let len := Z.of_nat (length message) in
  let zeros := Z.to_nat ((55 - len) mod 64) in
  message ++ [0x80] ++ List.repeat 0 zeros ++ be_bytes 8 (8 * len).

Definition be_word (b : list Z) : Z :=
  List.fold_left (fun acc x => acc * 256 + x) b 0.

(** The input cut into chunks of [size]; [fuel] bounds the number of chunks. *)
Fixpoint chunks (fuel size : nat) (l : list Z) : list (list Z) :=
  match fuel, l with
  | O, _ | _, [] => []
  | S fuel, _ => List.firstn size l :: chunks fuel size (List.skipn size l)
  end.

(** The message schedule, most recent word first. *)
Fixpoint schedule (steps : nat) (rev_w : list Z) : list Z :=
  match steps with
  | O => rev_w
  | S steps =>
      let w i := List.nth i rev_w 0 in
      schedule steps
        (add32 (add32 (sigma1 (w 1%nat)) (w 6%nat)) (add32 (sigma0 (w 14%nat)) (w 15%nat))
           :: rev_w)
  end.

Definition round (state : list Z) (kw : Z * Z) : list Z :=
  match state with
  | [a; b; c; d; e; f; g; h] =>
      let t1 := add32 (add32 (add32 h (Sigma1 e)) (add32 (Ch e f g) (fst kw))) (snd kw) in
      let t2 := add32 (Sigma0 a) (Maj a b c) in
      [add32 t1 t2; a; b; c; add32 d t1; e; f; g]
  | _ => state
  end.

Definition compress (hash : list Z) (block : list Z) : list Z :=
  let w := List.rev (schedule 48 (List.rev (List.map be_word (chunks 16 4 block)))) in
  let final := List.fold_left round (List.combine K w) hash in
  List.map (fun p => add32 (fst p) (snd p)) (List.combine hash final).

Definition digest (message : list Z) : list Z :=
  let padded := pad message in
  List.fold_left compress (chunks (length padded) 64 padded) H0.

Definition hex_digit (n : Z) : ascii :=
  if n <? 10 then ascii_of_N (Z.to_N (48 + n)) else ascii_of_N (Z.to_N (87 + n)).

Definition hex_word (x : Z) : list ascii :=
  List.map (fun i => hex_digit (Z.shiftr x (4 * Z.of_nat i) mod 16)) (List.rev (List.seq 0 8)).

Definition bytes_of_string (s : string) : list Z :=
  List.map (fun c => Z.of_N (N_of_ascii c)) (list_ascii_of_string s).

(** [createHash('sha256').update(s).digest('hex')] *)
Definition hex (s : string) : string :=
  string_of_list_ascii (List.concat (List.map hex_word (digest (bytes_of_string s)))).

End SHA256.

(** ** JSON.stringify, for the token payload *)

Module JSON.
Local Open Scope string_scope.

Definition quote : string := String (ascii_of_N 34) EmptyString.

Definition hex_digit (n : N) : ascii :=
  if (n <? 10)%N then ascii_of_N (48 + n) else ascii_of_N (87 + n).

(** One character of a quoted string: the two-character escapes, [\u00xx]
    for the other control characters, the character itself otherwise. *)
Definition escape (c : ascii) : string :=
  let n := N_of_ascii c in
  if (n =? 8)%N then "\b"
  else if (n =? 9)%N then "\t"
  else if (n =? 10)%N then "\n"
  else if (n =? 12)%N then "\f"
  else if (n =? 13)%N then "\r"
  else if (n =? 34)%N then "\" ++ quote
  else if (n =? 92)%N then "\\"
  else if (n <? 32)%N
       then "\u00" ++ String (hex_digit (n / 16)) (String (hex_digit (n mod 16)) EmptyString)
  else String c EmptyString.

Fixpoint escape_all (s : string) : string :=
  match s with
  | EmptyString => EmptyString
  | String c s => escape c ++ escape_all s
  end.

Definition stringify_string (s : string) : string := quote ++ escape_all s ++ quote.

(** An integer number prints as its decimal digits. *)
Definition stringify_number (n : Z) : string := NilZero.string_of_int (Z.to_int n).

End JSON.

(** ** EventSecurityService *)

Module EventSecurityService.
Local Open Scope string_scope.

Record Payload := {
  payload_eventId : string;
  payload_userId : string;
  payload_timestamp : Z
}.

(** [JSON.stringify(payload)]: the keys in the order of the object literal. *)
Definition stringify (payload : Payload) : string :=
  "{" ++ JSON.stringify_string "eventId" ++ ":" ++ JSON.stringify_string (payload_eventId payload)
  ++ "," ++ JSON.stringify_string "userId" ++ ":" ++ JSON.stringify_string (payload_userId payload)
  ++ "," ++ JSON.stringify_string "timestamp" ++ ":" ++ JSON.stringify_number (payload_timestamp payload)
  ++ "}".

(** [JSON.stringify(payload) + process.env.EVENT_TOKEN_SECRET]; an unset
    variable concatenates as the text [undefined]. *)
Definition tokenInput (secret : option string) (payload : Payload) : string :=
  stringify payload ++ default "undefined" secret.

Record AccessToken := {
  accessToken : string;
  expiresAt : Z
}.

(** [now] is [Date.now()] at the call. *)
Definition generateEventAccessToken (secret : option string) (now : Z)
    (eventId userId : string) : AccessToken :=
  let payload :=
    {| payload_eventId := eventId; payload_userId := userId; payload_timestamp := now |} in
  let token := SHA256.hex (tokenInput secret payload) in
  {| accessToken := token; expiresAt := now + 24 * 60 * 60 * 1000 |}.

Definition validateEventAccessToken (secret : option string) (now : Z)
    (token eventId userId : string) : bool :=
  let payload :=
    {| payload_eventId := eventId; payload_userId := userId; payload_timestamp := now |} in
  let expectedToken := SHA256.hex (tokenInput secret payload) in
  String.eqb token expectedToken.

Record RateLimit := {
  rateLimit_allowed : bool;
  rateLimit_message : option string
}.

Definition logOptions (userId : option string) (action : string) (details : Details)
    (success : option bool) : AuditLogService.Options :=
  {| AuditLogService.userId := userId;
     AuditLogService.username := None;
     AuditLogService.email := None;
     AuditLogService.role := None;
     AuditLogService.action := Some action;
     AuditLogService.details := Some details;
     AuditLogService.ipAddress := None;
     AuditLogService.userAgent := None;
     AuditLogService.success := success |}.

Definition checkRegistrationRateLimit (db : Collaborators) (now : Z)
    (userId eventId : string) : M RateLimit :=
  rethrow "Registration rate limit check error:"
    (let* recentRegistrations :=
       lift (Event_countDocuments db userId (twentyFourHoursAgo now)) in
     (* Limit to 10 event registrations per 24 hours *)
     if (10 <=? recentRegistrations)%nat
     then
       let* _ :=
         AuditLogService.log db now
           (Some (logOptions (Some userId) "REGISTRATION_RATE_LIMIT_EXCEEDED"
                    (RateLimitReport eventId recentRegistrations) (Some false))) in
       ret {| rateLimit_allowed := false;
              rateLimit_message :=
                Some "Registration limit exceeded. Please try again later."%string |}
     else ret {| rateLimit_allowed := true; rateLimit_message := None |}).

(** [event.participants.length / event.capacity > 0.9]: a missing capacity
    gives [NaN], a capacity of zero gives [Infinity] or [NaN], and [NaN]
    compares false.  On the schema's range of capacities (1 to 10000) the
    comparison of the doubles and of the exact quotient agree. *)
Definition registrationAboveNinetyPercent (event : Event) : bool :=
  let registered := Z.of_nat (length (participants event)) in
  match capacity event with
  | None => false
  | Some capacity =>
      if (capacity =? 0)%Z then (0 <? registered)%Z
      else Qlt_bool (9 # 10) (inject_Z registered / inject_Z capacity)
  end.

Record RiskAssessment := {
  riskLevel : RiskLevel;
  riskScore : Q;
  requiresAdditionalVerification : bool
}.

Definition isLOW (level : RiskLevel) : bool :=
  match level with LOW => true | _ => false end.

Definition assessRegistrationRisk (db : Collaborators) (now : Z)
    (userId eventId : string) : M RiskAssessment :=
  rethrow "Registration risk assessment error:"
    (let* user := lift (User_findById db userId) in
     let* event := lift (Event_findById db eventId) in
     match user, event with
     | None, _ => throw (TypeError "Cannot read properties of null (reading 'createdAt')")
     | Some _, None =>
         throw (TypeError "Cannot read properties of null (reading 'participants')")
     | Some user, Some event =>
         let riskScore := 0%Q in
         (* Account age factor *)
         let accountAgeInDays :=
           (inject_Z (now - createdAt user) / inject_Z (1000 * 3600 * 24))%Q in
         let riskScore :=
           if Qlt_bool accountAgeInDays 30 then (riskScore + 2)%Q else riskScore in
         (* Previous event participation *)
         let pastEventCount := length (registeredEvents user) in
         let riskScore := if (pastEventCount <? 3)%nat then (riskScore + 1)%Q else riskScore in
         (* Event capacity and current registrations *)
         let riskScore :=
           if registrationAboveNinetyPercent event then (riskScore + 1)%Q else riskScore in
         (* Determine risk level *)
         let riskLevel :=
           if Qlt_bool 3 riskScore then HIGH
           else if Qlt_bool 1 riskScore then MEDIUM
           else LOW in
         let* _ :=
           AuditLogService.log db now
             (Some (logOptions (Some userId) "REGISTRATION_RISK_ASSESSMENT"
                      (RegistrationRiskReport eventId riskScore riskLevel) None)) in
         ret {| riskLevel := riskLevel;
                riskScore := riskScore;
                requiresAdditionalVerification := negb (isLOW riskLevel) |}
     end).

Record SuspiciousRegistrations := {
  suspiciousRegistrations : list RegistrationGroup;
  potentialFraud : bool
}.

Record SecurityCheck := {
  allowed : bool;
  check_rateLimit : RateLimit;
  check_riskAssessment : RiskAssessment;
  check_suspiciousRegistrations : SuspiciousRegistrations
}.

(** [mongoose.Types.ObjectId(eventId)]: eventSecurityService.js requires
    crypto, the two models and the audit service, and never mongoose, so the
    name is not bound and reading it throws. *)
Definition mongoose_Types_ObjectId (id : string) : result string :=
  Err (ReferenceError "mongoose is not defined").

(** The pipeline would run inside the store; the service builds it, and with
    it the cast, before [Event.aggregate] is called. *)
Definition detectSuspiciousRegistrations (db : Collaborators) (eventId : string)
  : M SuspiciousRegistrations :=
  rethrow "Suspicious registration detection error:"
    (let* id := lift (mongoose_Types_ObjectId eventId) in
     let* registrations := lift (Event_aggregateRegistrationsByIp db id) in
     ret {| suspiciousRegistrations := registrations;
            potentialFraud := (0 <? length registrations)%nat |}).

(** Of the three calls, the first two await the store; the third throws
    while it builds its pipeline and hands [Promise.all] a promise that is
    rejected already. *)
Definition performEventSecurityCheck (db : Collaborators) (now : Z)
    (userId eventId : string) : M SecurityCheck :=
  rethrow "Comprehensive event security check error:"
    (let* checks :=
       Promise_all3
         (Pending (checkRegistrationRateLimit db now userId eventId))
         (Pending (assessRegistrationRisk db now userId eventId))
         (Settled (detectSuspiciousRegistrations db eventId)) in
     let '(rateLimit, riskAssessment, suspiciousRegistrations) := checks in
     ret {| allowed := rateLimit_allowed rateLimit && negb (potentialFraud suspiciousRegistrations);
            check_rateLimit := rateLimit;
            check_riskAssessment := riskAssessment;
            check_suspiciousRegistrations := suspiciousRegistrations |}).

End EventSecurityService.

(** ** An in-memory document store

    A stand-in for the database on which the services can be run: the
    collections are finite maps and lists, [paginate] filters, sorts and cuts
    the page as mongoose-paginate-v2 does, and the audit sink can be made
    unavailable. *)

Module MemoryStore.

Record State := {
  users : gmap string User;
  events : gmap string Event;
  auditLogs : list AuditLog;
  sinkAvailable : bool
}.

Definition matches (filters : LogFilters) (log : AuditLog) : bool :=
  match filter_userId filters with
  | Some id => bool_decide (log_userId log = Some id)
  | None => true
  end
  && (filter_since filters <=? log_timestamp log)
  && match filter_success filters with
     | Some b => Bool.eqb (log_success log) b
     | None => true
     end.

Definition olderFirst (a b : AuditLog) : Prop := log_timestamp a <= log_timestamp b.
Definition newerFirst (a b : AuditLog) : Prop := log_timestamp b <= log_timestamp a.

#[local] Instance olderFirst_dec a b : Decision (olderFirst a b) := Z.le_dec _ _.
#[local] Instance newerFirst_dec a b : Decision (newerFirst a b) := Z.le_dec _ _.

Definition sorted (order : SortOrder) (logs : list AuditLog) : list AuditLog :=
  match order with
  | TimestampDescending => merge_sort newerFirst logs
  | TimestampAscending => merge_sort olderFirst logs
  end.

Definition paginate (st : State) (filters : LogFilters) (page limit : nat)
    (order : SortOrder) : result Page :=
  let found := sorted order (List.filter (matches filters) (auditLogs st)) in
  Ok {| docs := take limit (drop ((page - 1) * limit)%nat found);
        totalDocs := length found |}.

Definition countDocuments (st : State) (participant : string) (since : Z) : result nat :=
  Ok (length
        (List.filter
           (fun e => bool_decide (participant ∈ participants e.2)
                     && (since <=? event_createdAt e.2))
           (map_to_list (events st)))).

(** The pipeline of [detectSuspiciousRegistrations]: the participants of the
    event that have a user document, grouped by the address of that document,
    and the groups of more than 5 kept. *)
Definition participantDetails (st : State) (eventId : string) : list (string * User) :=
  match events st !! eventId with
  | Some event =>
      omap (fun participant => pair participant <$> users st !! participant)
        (participants event)
  | None => []
  end.

Definition registrationGroup (found : list (string * User)) (ip : option string)
  : RegistrationGroup :=
  let members :=
    List.filter (fun d => bool_decide (contactInfo_ipAddress d.2 = ip)) found in
  {| group_ipAddress := ip;
     registrationCount := length members;
     group_users := remove_dups (List.map fst members) |}.

Definition aggregateRegistrationsByIp (st : State) (eventId : string)
  : result (list RegistrationGroup) :=
  let found := participantDetails st eventId in
  let addresses := remove_dups (List.map (fun d => contactInfo_ipAddress d.2) found) in
  Ok (List.filter (fun g => (5 <? registrationCount g)%nat)
        (List.map (registrationGroup found) addresses)).

Definition insert (st : State) (doc : AuditLog) : result unit :=
  if sinkAvailable st then Ok tt else Err (StoreError "audit_logs: connection lost").

(** The texts that bson 6 makes an ObjectId of: 24 hexadecimal digits. *)
Definition isHexDigit (c : ascii) : bool :=
  let n := N_of_ascii c in
  ((48 <=? n) && (n <=? 57) || (65 <=? n) && (n <=? 70) || (97 <=? n) && (n <=? 102))%N.

Definition isObjectIdText (id : string) : bool :=
  (String.length id =? 24)%nat && forallb isHexDigit (list_ascii_of_string id).

Definition collaborators (st : State) : Collaborators :=
  {| castsToObjectId := isObjectIdText;
     User_findById := fun id => Ok (users st !! id);
     Event_findById := fun id => Ok (events st !! id);
     Event_countDocuments := countDocuments st;
     Event_aggregateRegistrationsByIp := aggregateRegistrationsByIp st;
     AuditLog_paginate := paginate st;
     AuditLog_insert := insert st |}.

End MemoryStore.

(** ** Recovering from an error *)

(** [try { body } catch (error) { console.error(label, error); return fallback; }] *)
Definition recover {A} (label : string) (fallback : A) (body : M A) : M A :=
  match body with
  | (console, Err e) => (console ++ [(label, e)], Ok fallback)
  | done => done
  end.

(** ** ThreatIntelligenceService *)

Module ThreatIntelligenceService.

(** What [checkAbuseIPDB] and [checkVirusTotalIP] return: the fields they
    copy from the response, each [undefined] when the provider left it out.
    The providers report integers. *)
Record AbuseReport := {
  isPublic : option bool;
  abuseConfidenceScore : option Z;
  totalReports : option Z;
  lastReportedAt : option string
}.

Record VirusTotalReport := {
  detectedUrls : option Z;
  detectedDownloads : option Z;
  communityScore : option Z
}.

(** The two requests of [axios.get]: they fail (no answer, or a status
    outside 2xx), or give the object under [response.data.data] (for
    VirusTotal, under [response.data.data.attributes]) when the body has it. *)
Record Providers := {
  AbuseIPDB_check : string -> result (option AbuseReport);
  VirusTotal_ipAddress : string -> result (option VirusTotalReport)
}.

(** A number that may be [NaN] ([None]). *)
Definition plus (a b : option Q) : option Q :=
  match a, b with
  | Some x, Some y => Some (x + y)%Q
  | _, _ => None
  end.

(** [x > n] and [x < n]; false when [x] is [undefined]. *)
Definition above (x : option Z) (n : Z) : bool :=
  match x with
  | Some v => n <? v
  | None => false
  end.

Definition below (x : option Z) (n : Z) : bool :=
  match x with
  | Some v => v <? n
  | None => false
  end.

(** [Math.min(Math.max(riskScore, 0), 10)], which is [NaN] on [NaN]. *)
Definition clamp (riskScore : option Q) : option Q :=
  option_map (fun score => Qmin (Qmax score 0) 10) riskScore.

(** The score is the exact sum; the double that the code holds is its
    rounding, equal to it when [abuseConfidenceScore] is a multiple of 5. *)
Definition calculateIPRiskScore (abuseIPDB : option AbuseReport)
    (virusTotal : option VirusTotalReport) : option Q :=
  let riskScore := Some 0%Q in
  let riskScore :=
    match abuseIPDB with
    | Some abuseIPDB =>
        let riskScore :=
          plus riskScore
            (option_map (fun score => inject_Z score / 10)%Q (abuseConfidenceScore abuseIPDB)) in
        plus riskScore (Some (if above (totalReports abuseIPDB) 10 then 2 else 0)%Q)
    | None => riskScore
    end in
  let riskScore :=
    match virusTotal with
    | Some virusTotal =>
        let riskScore :=
          plus riskScore (Some (if above (detectedUrls virusTotal) 5 then 3 else 0)%Q) in
        let riskScore :=
          plus riskScore (Some (if above (detectedDownloads virusTotal) 3 then 2 else 0)%Q) in
        plus riskScore (Some (if below (communityScore virusTotal) (-10) then 2 else 0)%Q)
    | None => riskScore
    end in
  clamp riskScore.

(** The arguments of [calculateFileRiskScore], as far as it reads them. *)
Record ScanAttributes := {
  total_detected : option Z;
  total_scans : option Z
}.

Record VirusTotalResult := {
  attributes : option ScanAttributes
}.

Record HybridAnalysisResult := {
  verdict : option string
}.

(** The double written [0.3] is 5404319552844595 / 2^54, a little under
    three tenths, and the next double is 5404319552844596 / 2^54.  A
    quotient of two integers is rounded to the nearest double, a tie to the
    even one, here the upper: the double of the quotient is above that of
    [0.3] exactly when the quotient reaches the middle of the two. *)
Definition aboveDouble_0_3 (quotient : Q) : bool :=
  Qle_bool (10808639105689191 # 36028797018963968) quotient.

(** [total_detected / total_scans > 0.3]: [NaN] when a count is missing or
    both are zero, an infinity on a division by zero.  The counts are
    integers that a double holds (below 2^53). *)
Definition detectionRatioAboveThirtyPercent (a : ScanAttributes) : bool :=
  match total_detected a, total_scans a with
  | Some detected, Some scans =>
      if scans =? 0 then 0 <? detected
      else aboveDouble_0_3 (inject_Z detected / inject_Z scans)
  | _, _ => false
  end.

Definition calculateFileRiskScore (virusTotalResult : VirusTotalResult)
    (hybridAnalysisResult : HybridAnalysisResult) : Q :=
  let riskScore := 0%Q in
  (* VirusTotal detection ratio *)
  let riskScore :=
    match attributes virusTotalResult with
    | Some a =>
        (riskScore + (if detectionRatioAboveThirtyPercent a then 5 else 0))%Q
    | None => riskScore
    end in
  (* Hybrid Analysis malware classification *)
  let riskScore :=
    if truthy (verdict hybridAnalysisResult)
    then (riskScore
          + (if bool_decide (verdict hybridAnalysisResult = Some "malicious"%string)
             then 5 else 0))%Q
    else riskScore in
  Qmin (Qmax riskScore 0) 10.

Definition checkAbuseIPDB (providers : Providers) (ipAddress : string)
  : M (option AbuseReport) :=
  recover "AbuseIPDB check error:" None
    (let* response := lift (AbuseIPDB_check providers ipAddress) in
     match response with
     | Some report => ret (Some report)
     | None => throw (TypeError "Cannot read properties of undefined (reading 'isPublic')")
     end).

Definition checkVirusTotalIP (providers : Providers) (ipAddress : string)
  : M (option VirusTotalReport) :=
  recover "VirusTotal IP check error:" None
    (let* response := lift (VirusTotal_ipAddress providers ipAddress) in
     match response with
     | Some report => ret (Some report)
     | None =>
         throw (TypeError "Cannot read properties of undefined (reading 'total_detected_urls')")
     end).

Record IpReputation := {
  ipAddress : string;
  abuseIPDB : option AbuseReport;
  virusTotal : option VirusTotalReport;
  riskScore : option Q
}.

(** [audit] is the call [AuditLogService.log({ action: 'IP_REPUTATION_CHECK',
    details: combinedReport })], which stores the report as the payload of
    the entry.  Both checks await their provider. *)
Definition checkIPReputation (providers : Providers)
    (audit : IpReputation -> M (option AuditLog)) (ipAddress : string) : M IpReputation :=
  rethrow "IP reputation check error:"
    (let* responses :=
       Promise_all2
         (Pending (checkAbuseIPDB providers ipAddress))
         (Pending (checkVirusTotalIP providers ipAddress)) in
     let '(abuseIPDBResponse, virusTotalResponse) := responses in
     let combinedReport :=
       {| ipAddress := ipAddress;
          abuseIPDB := abuseIPDBResponse;
          virusTotal := virusTotalResponse;
          riskScore := calculateIPRiskScore abuseIPDBResponse virusTotalResponse |} in
     let* _ := audit combinedReport in
     ret combinedReport).

(** A threat, as far as [consolidateThreatIntelligence] reads it. *)
Record Threat := {
  threat_id : option string;
  severity : Z
}.

(** [self.findIndex(t => t.id === threat.id)] *)
Fixpoint findIndex (test : Threat -> bool) (self : list Threat) : option nat :=
  match self with
  | [] => None
  | t :: rest => if test t then Some 0%nat else S <$> findIndex test rest
  end.

Definition sameId (threat t : Threat) : bool :=
  bool_decide (threat_id t = threat_id threat).

(** [.filter((threat, index, self) => index === self.findIndex(...))] *)
Definition firstOfItsId (self : list Threat) : list Threat :=
  List.map snd
    (List.filter (fun entry => bool_decide (findIndex (sameId entry.2) self = Some entry.1))
       (imap pair self)).

(** [.sort((a, b) => b.severity - a.severity)]: the sort of arrays is stable,
    which fixes its result; here by insertion, from the last element on. *)
Fixpoint insertBySeverity (threat : Threat) (sorted : list Threat) : list Threat :=
  match sorted with
  | [] => [threat]
  | t :: rest =>
      if severity threat <? severity t
      then t :: insertBySeverity threat rest
      else threat :: t :: rest
  end.

Definition sortBySeverity (threats : list Threat) : list Threat :=
  List.fold_right insertBySeverity [] threats.

Definition consolidateThreatIntelligence (globalFeeds emergingThreats : list Threat)
  : list Threat :=
  let consolidatedThreats := globalFeeds ++ emergingThreats in
  sortBySeverity (firstOfItsId consolidatedThreats).

(** Both feeds are placeholders in the code. *)
Definition fetchGlobalThreatFeeds : M (list Threat) := ret [].
Definition fetchEmergingThreats : M (list Threat) := ret [].

(** [audit] is the call [AuditLogService.log({ action:
    'THREAT_INTELLIGENCE_MONITORING', details: consolidatedThreats })].  The
    two feeds return without awaiting anything. *)
Definition runThreatMonitoring (audit : list Threat -> M (option AuditLog))
  : M (list Threat) :=
  recover "Threat monitoring error:" []
    (let* feeds :=
       Promise_all2 (Settled fetchGlobalThreatFeeds) (Settled fetchEmergingThreats) in
     let '(globalThreatFeeds, emergingThreats) := feeds in
     let consolidatedThreats :=
       consolidateThreatIntelligence globalThreatFeeds emergingThreats in
     let* _ := audit consolidatedThreats in
     ret consolidatedThreats).

End ThreatIntelligenceService.

(** ** The fraud checks that combine the detectors *)

(** [FraudDetectionService.detectAnomalies] runs two aggregations in the
    store and reports the users that the second one returns; where it is
    called below, what it does is an argument. *)
Record Anomaly := {
  anomaly_id : string
}.

Record AnomalyResult := {
  anomalies : list Anomaly;
  anomaly_timestamp : Z
}.

Module ComprehensiveFraudCheck.
Import FraudDetectionService.

Record OverallRiskAssessment := {
  overall_userId : string;
  userActivityRisk : RiskLevel;
  ipFraudRisk : RiskLevel;
  anomalyRisk : RiskLevel
}.

(** [FraudDetectionService.runComprehensiveFraudCheck]; [audit] is its call
    [AuditLogService.log({ userId, action: 'COMPREHENSIVE_FRAUD_CHECK',
    details: overallRiskAssessment })].  Of the three calls the first throws
    at its cast, before it awaits anything; the other two await the store. *)
Definition runComprehensiveFraudCheck (db : Collaborators) (now : Z)
    (detectAnomalies : M AnomalyResult)
    (audit : OverallRiskAssessment -> M (option AuditLog)) (userId : string)
  : M OverallRiskAssessment :=
  rethrow "Comprehensive fraud check error:"
    (let* checks :=
       Promise_all3
         (Settled (detectSuspiciousUserActivity db now userId))
         (Pending (detectIPBasedFraud db now))
         (Pending detectAnomalies) in
     let '(userActivityCheck, ipFraudCheck, anomalyDetection) := checks in
     let overallRiskAssessment :=
       {| overall_userId := userId;
          userActivityRisk := report_riskLevel userActivityCheck;
          ipFraudRisk := if (0 <? length (suspiciousIPs ipFraudCheck))%nat then HIGH else LOW;
          anomalyRisk := if (0 <? length (anomalies anomalyDetection))%nat then MEDIUM else LOW |} in
     let* _ := audit overallRiskAssessment in
     ret overallRiskAssessment).

End ComprehensiveFraudCheck.

(** ** SystemMonitoringService *)

(** What a division of two integers gives, and its multiples. *)
Inductive Number :=
| Finite (q : Q)
| Infinity
| NegInfinity
| NaN.

(** [a / b] *)
Definition divide (a b : Z) : Number :=
  if b =? 0
  then if 0 <? a then Infinity else if a <? 0 then NegInfinity else NaN
  else Finite (inject_Z a / inject_Z b).

(** [x * 100] *)
Definition times100 (x : Number) : Number :=
  match x with
  | Finite q => Finite (q * 100)
  | other => other
  end.

(** [x > n] *)
Definition exceeds (x : Number) (n : Q) : bool :=
  match x with
  | Finite q => Qlt_bool n q
  | Infinity => true
  | NegInfinity | NaN => false
  end.

Module SystemMonitoringService.

(** [process.cpuUsage()]: the microseconds spent in user and system code. *)
Record CpuUsage := {
  cpu_user : Z;
  cpu_system : Z
}.

(** [process.memoryUsage()], in bytes. *)
Record MemoryUsage := {
  rss : Z;
  heapTotal : Z;
  heapUsed : Z
}.

(** The readings of the process that the alerts depend on. *)
Record Process := {
  process_cpuUsage : CpuUsage;
  process_memoryUsage : MemoryUsage
}.

(** Of the report of [getSystemHealth], the fields that [AlertService]
    reads: [cpu.usage] and [memory.usedPercentage]. *)
Record SystemHealth := {
  cpu_usage : CpuUsage;
  memory_usedPercentage : Number
}.

(** The quotient is exact here; below 2^47 bytes the comparisons of the
    alerts decide the same on it as on the double. *)
Definition getSystemHealth (process : result Process) : M SystemHealth :=
  rethrow "System health monitoring error:"
    (let* process := lift process in
     let cpuUsage := process_cpuUsage process in
     let memoryUsage := process_memoryUsage process in
     ret {| cpu_usage := cpuUsage;
            memory_usedPercentage :=
              times100 (divide (heapUsed memoryUsage) (heapTotal memoryUsage)) |}).

End SystemMonitoringService.

(** ** AlertService *)

Module AlertService.
Import FraudDetectionService SystemMonitoringService.

Inductive AlertDetails :=
| SuspiciousAddresses (groups : list IpGroup)
| AnomalousUsers (users : list Anomaly).

Record Alert := {
  alert_type : string;
  alert_severity : string;
  alert_title : string;
  alert_description : string;
  alert_details : option AlertDetails;
  alert_timestamp : Z
}.

Definition count (n : nat) : string := JSON.stringify_number (Z.of_nat n).

(** [usage > n] on the object of [process.cpuUsage()]: the object converts
    to the text [[object Object]], the text to [NaN], and no number is
    below [NaN]. *)
Definition CpuUsage_exceeds (usage : CpuUsage) (n : Q) : bool := false.

(** The object in a template string. *)
Definition CpuUsage_toString (usage : CpuUsage) : string := "[object Object]".

(** [toString] prints a number in a template string. *)
Definition checkSystemPerformance (toString : Number -> string) (now : Z)
    (process : result Process) : M (list Alert) :=
  recover "System performance alert generation error:" []
    (let* systemHealth := getSystemHealth process in
     let alerts := [] in
     (* CPU Usage Alert *)
     let alerts :=
       if CpuUsage_exceeds (cpu_usage systemHealth) 80
       then alerts ++
            [ {| alert_type := "SYSTEM_PERFORMANCE";
                 alert_severity :=
                   if CpuUsage_exceeds (cpu_usage systemHealth) 90 then "CRITICAL" else "HIGH";
                 alert_title := "High CPU Utilization";
                 alert_description :=
                   ("CPU usage is at " ++ CpuUsage_toString (cpu_usage systemHealth)
                    ++ "%")%string;
                 alert_details := None;
                 alert_timestamp := now |} ]
       else alerts in
     (* Memory Usage Alert *)
     let alerts :=
       if exceeds (memory_usedPercentage systemHealth) 85
       then alerts ++
            [ {| alert_type := "SYSTEM_PERFORMANCE";
                 alert_severity :=
                   if exceeds (memory_usedPercentage systemHealth) 95
                   then "CRITICAL" else "HIGH";
                 alert_title := "High Memory Consumption";
                 alert_description :=
                   ("Memory usage is at " ++ toString (memory_usedPercentage systemHealth)
                    ++ "%")%string;
                 alert_details := None;
                 alert_timestamp := now |} ]
       else alerts in
     ret alerts).

Definition checkFraudActivity (db : Collaborators) (now : Z)
    (detectAnomalies : M AnomalyResult) : M (list Alert) :=
  recover "Fraud activity alert generation error:" []
    (let* detections :=
       Promise_all2 (Pending (detectIPBasedFraud db now)) (Pending detectAnomalies) in
     let '(ipFraudDetection, anomalyDetection) := detections in
     let alerts := [] in
     (* IP-based Fraud Alerts *)
     let alerts :=
       if (0 <? length (suspiciousIPs ipFraudDetection))%nat
       then alerts ++
            [ {| alert_type := "FRAUD_DETECTION";
                 alert_severity := "HIGH";
                 alert_title := "Suspicious IP Activity Detected";
                 alert_description :=
                   (count (length (suspiciousIPs ipFraudDetection))
                    ++ " suspicious IP addresses identified")%string;
                 alert_details := Some (SuspiciousAddresses (suspiciousIPs ipFraudDetection));
                 alert_timestamp := now |} ]
       else alerts in
     (* Anomaly Detection Alerts *)
     let alerts :=
       if (0 <? length (anomalies anomalyDetection))%nat
       then alerts ++
            [ {| alert_type := "NETWORK_ANOMALY";
                 alert_severity := "MEDIUM";
                 alert_title := "User Behavior Anomalies Detected";
                 alert_description :=
                   (count (length (anomalies anomalyDetection))
                    ++ " users showing unusual behavior patterns")%string;
                 alert_details := Some (AnomalousUsers (anomalies anomalyDetection));
                 alert_timestamp := now |} ]
       else alerts in
     ret alerts).

(** [for (const alert of combinedAlerts) { await AuditLogService.log(...) }] *)
Fixpoint logEach (audit : Alert -> M (option AuditLog)) (alerts : list Alert) : M unit :=
  match alerts with
  | [] => ret tt
  | alert :: rest => let* _ := audit alert in logEach audit rest
  end.

(** [audit] is the call [AuditLogService.log({ action: 'SYSTEM_ALERT',
    details: alert })]. *)
Definition runAlertMonitoring (toString : Number -> string) (db : Collaborators) (now : Z)
    (process : result Process) (detectAnomalies : M AnomalyResult)
    (audit : Alert -> M (option AuditLog)) : M (list Alert) :=
  recover "Comprehensive alert monitoring error:" []
    (let* alerts :=
       Promise_all2
         (Pending (checkSystemPerformance toString now process))
         (Pending (checkFraudActivity db now detectAnomalies)) in
     let '(performanceAlerts, fraudAlerts) := alerts in
     let combinedAlerts := performanceAlerts ++ fraudAlerts in
     (* Log alerts to audit log *)
     let* _ := logEach audit combinedAlerts in
     ret combinedAlerts).

End AlertService.

(** ** AdminDashboardController *)

Module AdminDashboardController.
Import FraudDetectionService.

Record Recommendation := {
  recommendation_type : string;
  priority : string;
  description : string;
  suggestedAction : string
}.

Definition generateSecurityRecommendations : M (list Recommendation) :=
  let recommendations :=
    [ {| recommendation_type := "USER_AUTHENTICATION";
         priority := "HIGH";
         description := "Implement multi-factor authentication for all admin accounts";
         suggestedAction := "Enable 2FA for admin users" |};
      {| recommendation_type := "IP_SECURITY";
         priority := "MEDIUM";
         description := "Block suspicious IP addresses with multiple failed login attempts";
         suggestedAction := "Update IP blocking rules" |};
      {| recommendation_type := "EVENT_REGISTRATION";
         priority := "LOW";
         description :=
           "Add additional verification for events with high-risk registration patterns";
         suggestedAction := "Implement advanced registration risk assessment" |} ] in
  ret recommendations.

(** What the handler sends: the status of the response and its JSON body. *)
Inductive Body :=
| ThreatIntelligence (ipFraudDetection : IpFraudResult) (anomalyDetection : AnomalyResult)
    (securityRecommendations : list Recommendation) (timestamp : Z)
| Failure (message : string) (error : string).

Record Response := {
  status : nat;
  body : Body
}.

(** [error.message] *)
Definition message_of (error : JsError) : string :=
  match error with
  | TypeError message | ReferenceError message | ValidationError message
  | StoreError message => message
  end.

(** [securityRecommendations] is the call
    [this.generateSecurityRecommendations()], which throws when the handler
    runs without its class as [this], and returns without awaiting anything
    otherwise; the two detectors await the store. *)
Definition getThreatIntelligence (db : Collaborators) (now : Z)
    (detectAnomalies : M AnomalyResult)
    (securityRecommendations : M (list Recommendation)) : M Response :=
  match
    (let* reports :=
       Promise_all3
         (Pending (detectIPBasedFraud db now))
         (Pending detectAnomalies)
         (Settled securityRecommendations) in
     let '(ipFraudDetection, anomalyDetection, securityRecommendations) := reports in
     ret {| status := 200;
            body := ThreatIntelligence ipFraudDetection anomalyDetection
                      securityRecommendations now |})
  with
  | (console, Err error) =>
      (console ++ [("Threat intelligence error:"%string, error)],
       Ok {| status := 500;
             body := Failure "Error generating threat intelligence" (message_of error) |})
  | sent => sent
  end.

End AdminDashboardController.

(** ** Vocabulary of the properties *)

Section Vocabulary.
Import FraudDetectionService EventSecurityService.

(** The order of the levels: LOW < MEDIUM < HIGH < CRITICAL. *)
Definition RiskLevel_rank (level : RiskLevel) : nat :=
  match level with
  | LOW => 0
  | MEDIUM => 1
  | HIGH => 2
  | CRITICAL => 3
  end.

Definition RiskLevel_le (a b : RiskLevel) : Prop :=
  (RiskLevel_rank a <= RiskLevel_rank b)%nat.

Definition day : Z := 1000 * 3600 * 24.

Definition accountAgeSignals (age : Q) : Q :=
  ((if Qlt_bool age 30 then 3 else 0) + (if Qlt_bool age 60 then 2 else 0))%Q.

(** The contribution of the signals computed from the activity list. *)
Definition activitySignals (activities : list AuditLog) : Q :=
  (Qmin (inject_Z (Z.of_nat (length (failedLogins activities))) * (1 # 2)) 2
   + (if (3 <? Set_size (uniqueLoginLocations activities))%nat then 1 else 0)
   + (if (3 <? Set_size (uniqueDevices activities))%nat then 1 else 0)
   + (if (2 <? length (irregularTimePatterns activities))%nat then 1 else 0))%Q.

(** The gaps between consecutive login timestamps, as the specification
    counts them: one gap for each pair of neighbours. *)
Fixpoint consecutiveGaps (timestamps : list Z) : list Z :=
  match timestamps with
  | previous :: (time :: _) as rest => Z.abs (time - previous) :: consecutiveGaps rest
  | _ => []
  end.

(** A gap is irregular when it is under 60 seconds or over 24 hours. *)
Definition irregularGap (gap : Z) : bool := (gap <? 60000) || (86400000 <? gap).

Definition irregularGapCount (activities : list AuditLog) : nat :=
  length (List.filter irregularGap
            (consecutiveGaps (FraudDetectionService.loginTimestamps activities))).

(** What a computation returns or throws, its console output left aside. *)
Definition outcome {A} (m : M A) : result A := snd m.

(** The store [db] with another audit sink. *)
Definition withSink (db : Collaborators) (insert : AuditLog -> result unit) : Collaborators :=
  {| castsToObjectId := castsToObjectId db;
     User_findById := User_findById db;
     Event_findById := Event_findById db;
     Event_countDocuments := Event_countDocuments db;
     Event_aggregateRegistrationsByIp := Event_aggregateRegistrationsByIp db;
     AuditLog_paginate := AuditLog_paginate db;
     AuditLog_insert := insert |}.

(** The filters of the trailing-24h window of failed events. *)
Definition failedWindow (now : Z) : LogFilters :=
  {| filter_userId := None;
     filter_since := twentyFourHoursAgo now;
     filter_success := Some false |}.

Definition rateLimitExceeded : RateLimit :=
  {| rateLimit_allowed := false;
     rateLimit_message := Some "Registration limit exceeded. Please try again later."%string |}.

Definition rateLimitOk : RateLimit :=
  {| rateLimit_allowed := true; rateLimit_message := None |}.

Definition payloadAt (eventId userId : string) (timestamp : Z) : Payload :=
  {| payload_eventId := eventId; payload_userId := userId; payload_timestamp := timestamp |}.

(** What the two casts [mongoose.Types.ObjectId(id)] of the services throw. *)
Definition classCallError : JsError :=
  TypeError "Class constructor ObjectId cannot be invoked without 'new'".

Definition unboundMongoose : JsError := ReferenceError "mongoose is not defined".

(** The number of distinct elements of a list. *)
Definition distinct {A} `{EqDecision A} (l : list A) : nat := length (remove_dups l).

(** Of the values read from the events, those that are there, and those
    that name something: a text that is not empty. *)
Definition presentValues (values : list (option string)) : list string := omap id values.

Definition realValues (values : list (option string)) : list string :=
  List.filter (fun s => negb (String.eqb s "")) (presentValues values).

Definition anyMissing (values : list (option string)) : bool :=
  existsb (fun v => bool_decide (v = None)) values.

(** The console line of an audit entry that the schema refuses. *)
Definition enumRejection : string * JsError :=
  ("Audit log error:"%string, ValidationError "action is not a valid enum value").

(** The threats that carry an id not seen so far, from left to right. *)
Fixpoint keepUnseen (seen threats : list ThreatIntelligenceService.Threat)
  : list ThreatIntelligenceService.Threat :=
  match threats with
  | [] => []
  | t :: rest =>
      if existsb (ThreatIntelligenceService.sameId t) seen
      then keepUnseen (seen ++ [t]) rest
      else t :: keepUnseen (seen ++ [t]) rest
  end.

(** [a] does not rank below [b]. *)
Definition severityAtLeast (a b : ThreatIntelligenceService.Threat) : Prop :=
  ThreatIntelligenceService.severity b <= ThreatIntelligenceService.severity a.

(** Reading back the first character of an escaped text. *)
Definition hex_value (c : ascii) : N :=
  let n := N_of_ascii c in
  if (n <? 58)%N then (n - 48)%N else (n - 87)%N.

Definition unescape (text : string) : option (ascii * string) :=
  match text with
  | EmptyString => None
  | String c rest =>
      if (N_of_ascii c =? 92)%N
      then match rest with
           | EmptyString => None
           | String kind rest =>
               let k := N_of_ascii kind in
               if (k =? 98)%N then Some (ascii_of_N 8, rest)
               else if (k =? 116)%N then Some (ascii_of_N 9, rest)
               else if (k =? 110)%N then Some (ascii_of_N 10, rest)
               else if (k =? 102)%N then Some (ascii_of_N 12, rest)
               else if (k =? 114)%N then Some (ascii_of_N 13, rest)
               else if (k =? 117)%N
                    then match rest with
                         | String _ (String _ (String high (String low rest))) =>
                             Some (ascii_of_N (16 * hex_value high + hex_value low), rest)
                         | _ => None
                         end
               else Some (kind, rest)
           end
      else Some (c, rest)
  end.

End Vocabulary.

(** ** Sample data *)

Section Samples.
Import EventSecurityService.

Definition loginAttempt (userId : string) (time : Z) (succeeded : bool)
    (location userAgent ip : option string) : AuditLog :=
  {| log_userId := Some userId;
     log_username := None;
     log_email := None;
     log_role := None;
     log_action := Some "LOGIN_ATTEMPT"%string;
     log_details := Some (RequestContext location userAgent);
     log_timestamp := time;
     log_ipAddress := ip;
     log_userAgent := userAgent;
     log_success := succeeded |}.

(** 1 January 2024, 00:00 UTC. *)
Definition sampleNow : Z := 1704067200000.

Definition tenDayOldUser : User :=
  {| createdAt := sampleNow - 10 * day; registeredEvents := [];
     contactInfo_ipAddress := Some "10.0.0.1"%string |}.

Definition hundredDayOldUser : User :=
  {| createdAt := sampleNow - 100 * day; registeredEvents := [];
     contactInfo_ipAddress := Some "10.0.0.1"%string |}.

Definition veteranUser : User :=
  {| createdAt := sampleNow - 400 * day;
     registeredEvents := ["a"; "b"; "c"; "d"]%string;
     contactInfo_ipAddress := Some "10.0.0.2"%string |}.

(** Two successful logins an hour apart, from one place and one browser,
    the newest first as [getLogs] sorts them. *)
Definition quietLogins : list AuditLog :=
  [ loginAttempt "u1" (sampleNow - 3600000) true (Some "Lagos") (Some "Firefox") (Some "10.0.0.1");
    loginAttempt "u1" (sampleNow - 7200000) true (Some "Lagos") (Some "Firefox") (Some "10.0.0.1") ]%string.

(** Three successful logins one second apart: two gaps, both under a minute. *)
Definition rapidLogins : list AuditLog :=
  [ loginAttempt "u1" sampleNow true (Some "Lagos") (Some "Firefox") (Some "10.0.0.1");
    loginAttempt "u1" (sampleNow - 1000) true (Some "Lagos") (Some "Firefox") (Some "10.0.0.1");
    loginAttempt "u1" (sampleNow - 2000) true (Some "Lagos") (Some "Firefox") (Some "10.0.0.1") ]%string.

(** Ids as the store gives them, 24 hexadecimal digits: a user and an event. *)
Definition alice : string := "65a1f0c2b3d4e5f6a7b8c9d0".
Definition gala : string := "65a1f0c2b3d4e5f6a7b8c9e1".

(** Ids that no document of the samples carries. *)
Definition stranger : string := "65a1f0c2b3d4e5f6a7b8c9ff".
Definition unlisted : string := "65a1f0c2b3d4e5f6a7b8c9fe".

(** Three events of [alice] from three browsers in three places, and two
    browsers in two places with a third event that carries neither. *)
Definition aliceThreeDevices : list AuditLog :=
  [ loginAttempt alice (sampleNow - 7200000) true (Some "Lagos") (Some "Firefox") None;
    loginAttempt alice (sampleNow - 3600000) true (Some "Accra") (Some "Chrome") None;
    loginAttempt alice (sampleNow - 1800000) true (Some "Nairobi") (Some "Safari") None ]%string.

Definition aliceTwoDevicesOneMissing : list AuditLog :=
  [ loginAttempt alice (sampleNow - 7200000) true (Some "Lagos") (Some "Firefox") None;
    loginAttempt alice (sampleNow - 3600000) true (Some "Accra") (Some "Chrome") None;
    loginAttempt alice (sampleNow - 1800000) true None None None ]%string.

(** Twelve failed logins in the last hours, all from 10.0.0.5, by two users. *)
Definition twelveFailures : list AuditLog :=
  List.map
    (fun i => loginAttempt (if Nat.even i then "u1" else "u2")
                (sampleNow - 60000 * Z.of_nat (S i)) false
                (Some "Lagos") (Some "Firefox") (Some "10.0.0.5"))%string
    (seq 0 12).

Definition openEvent : Event :=
  {| participants := []; capacity := Some 100; event_createdAt := sampleNow - 30 * day |}.

Definition failuresStore : MemoryStore.State :=
  {| MemoryStore.users := ∅;
     MemoryStore.events := ∅;
     MemoryStore.auditLogs := twelveFailures;
     MemoryStore.sinkAvailable := true |}.

(** A ten-day-old user and an open event: no registration in the window. *)
Definition calmStore : MemoryStore.State :=
  {| MemoryStore.users := {[ "u1"%string := tenDayOldUser ]};
     MemoryStore.events := {[ "e1"%string := openEvent ]};
     MemoryStore.auditLogs := [];
     MemoryStore.sinkAvailable := true |}.

(** [alice], ten days old, and the event [gala] that nobody joined yet; the
    audit log holds [logs]. *)
Definition aliceStore (logs : list AuditLog) : MemoryStore.State :=
  {| MemoryStore.users := {[ alice := tenDayOldUser ]};
     MemoryStore.events := {[ gala := openEvent ]};
     MemoryStore.auditLogs := logs;
     MemoryStore.sinkAvailable := true |}.

(** Twelve events that list [alice] among their participants, each created
    [age] milliseconds ago; an event records who takes part, not since when. *)
Definition twelveEventsOf (age : Z) : list (string * Event) :=
  List.map
    (fun i => (("65a1f0c2b3d4e5f6a7b8ca0"
                ++ String (JSON.hex_digit (N.of_nat i)) EmptyString)%string,
               {| participants := [alice]; capacity := Some 100;
                  event_createdAt := sampleNow - age |}))
    (seq 0 12).

Definition registrationsStore (age : Z) : MemoryStore.State :=
  {| MemoryStore.users := {[ alice := veteranUser ]};
     MemoryStore.events := <[ gala := openEvent ]> (list_to_map (twelveEventsOf age));
     MemoryStore.auditLogs := [];
     MemoryStore.sinkAvailable := true |}.

(** The ten-day-old user's store with the audit sink down. *)
Definition sinkDownStore : MemoryStore.State :=
  {| MemoryStore.users := {[ "u1"%string := tenDayOldUser ]};
     MemoryStore.events := {[ "e1"%string := openEvent ]};
     MemoryStore.auditLogs := [];
     MemoryStore.sinkAvailable := false |}.

Definition loginRecord : AuditLogService.Options :=
  {| AuditLogService.userId := Some "65a1f0c2b3d4e5f6a7b8c9d0"%string;
     AuditLogService.username := None;
     AuditLogService.email := None;
     AuditLogService.role := None;
     AuditLogService.action := Some "LOGIN_ATTEMPT"%string;
     AuditLogService.details := None;
     AuditLogService.ipAddress := Some "10.0.0.1"%string;
     AuditLogService.userAgent := None;
     AuditLogService.success := None |}.

(** Both providers unreachable. *)
Definition unreachableProviders : ThreatIntelligenceService.Providers :=
  {| ThreatIntelligenceService.AbuseIPDB_check :=
       fun _ => Err (StoreError "connect ECONNREFUSED");
     ThreatIntelligenceService.VirusTotal_ipAddress :=
       fun _ => Err (StoreError "connect ECONNREFUSED") |}.

(** An audit call on the store [st] for an entry without a user. *)
Definition auditOn (st : MemoryStore.State) (action : string) {A} (payload : A)
  : M (option AuditLog) :=
  AuditLogService.log (MemoryStore.collaborators st) sampleNow
    (Some {| AuditLogService.userId := None;
             AuditLogService.username := None;
             AuditLogService.email := None;
             AuditLogService.role := None;
             AuditLogService.action := Some action;
             AuditLogService.details := None;
             AuditLogService.ipAddress := None;
             AuditLogService.userAgent := None;
             AuditLogService.success := None |}).

(** A process whose heap is 90% used. *)
Definition busyProcess : SystemMonitoringService.Process :=
  {| SystemMonitoringService.process_cpuUsage :=
       {| SystemMonitoringService.cpu_user := 95000000;
          SystemMonitoringService.cpu_system := 5000000 |};
     SystemMonitoringService.process_memoryUsage :=
       {| SystemMonitoringService.rss := 120000000;
          SystemMonitoringService.heapTotal := 100000000;
          SystemMonitoringService.heapUsed := 90000000 |} |}.

(** Printing a percentage, for the samples: its integer part. *)
Definition wholePercent (x : Number) : string :=
  match x with
  | Finite q => JSON.stringify_number (Qnum q / Z.pos (Qden q))
  | Infinity => "Infinity"
  | NegInfinity => "-Infinity"
  | NaN => "NaN"
  end.

End Samples.

(** * Properties *)

Example sha256_round_constants :
  length SHA256.K = 64%nat
  /\ List.firstn 2 SHA256.K = [0x428a2f98; 0x71374491]
  /\ List.firstn 2 SHA256.H0 = [0x6a09e667; 0xbb67ae85].
Proof. repeat split. Qed.

Example sha256_abc :
  SHA256.hex "abc" = "ba7816bf8f01cfea414140de5dae2223b00361a396177a9cb410ff61f20015ad"%string.
Proof. vm_compute. reflexivity. Qed.

Example token_example :
  EventSecurityService.accessToken
    (EventSecurityService.generateEventAccessToken (Some "s3cret"%string) 1700000000000 "e1" "u1")
  = "6aae1db178c54e4bc6119c85e2401f1eae179f6c6ba9609d15b4173d035b39a0"%string.
Proof. vm_compute. reflexivity. Qed.

(** ** Numbers and comparisons *)

Lemma Qlt_bool_iff (a b : Q) : Qlt_bool a b = true <-> (a < b)%Q.
Proof.
  unfold Qlt_bool. rewrite negb_true_iff, <- not_true_iff_false, Qle_bool_iff.
  split; [apply Qnot_le_lt | apply Qlt_not_le].
Qed.

Lemma Qlt_bool_false_iff (a b : Q) : Qlt_bool a b = false <-> (b <= a)%Q.
Proof.
  unfold Qlt_bool. rewrite negb_false_iff. apply Qle_bool_iff.
Qed.

Lemma Qle_bool_false_iff (a b : Q) : Qle_bool a b = false <-> (b < a)%Q.
Proof.
  rewrite <- not_true_iff_false, Qle_bool_iff.
  split; [apply Qnot_le_lt | apply Qlt_not_le].
Qed.

Lemma clamp_bounds (x : Q) : (0 <= Qmin (Qmax x 0) 10 <= 10)%Q.
Proof.
  split.
  - apply Q.min_glb; [apply Q.le_max_r | lra].
  - apply Q.le_min_r.
Qed.

Section RiskLevels.
Import FraudDetectionService.

Lemma determineRiskLevel_cases (score : Q) :
  ((score <= 2)%Q /\ determineRiskLevel score = LOW) \/
  ((2 < score <= 5)%Q /\ determineRiskLevel score = MEDIUM) \/
  ((5 < score <= 7)%Q /\ determineRiskLevel score = HIGH) \/
  ((7 < score)%Q /\ determineRiskLevel score = CRITICAL).
Proof.
  unfold determineRiskLevel.
  destruct (Qle_bool score 2) eqn:H2; [left; split; [now apply Qle_bool_iff | easy] |].
  apply Qle_bool_false_iff in H2.
  destruct (Qle_bool score 5) eqn:H5;
    [right; left; split; [split; [easy | now apply Qle_bool_iff] | easy] |].
  apply Qle_bool_false_iff in H5.
  destruct (Qle_bool score 7) eqn:H7;
    [right; right; left; split; [split; [easy | now apply Qle_bool_iff] | easy] |].
  apply Qle_bool_false_iff in H7.
  right; right; right. easy.
Qed.

Lemma determineRiskLevel_monotone (a b : Q) :
  (a <= b)%Q -> RiskLevel_le (determineRiskLevel a) (determineRiskLevel b).
Proof.
  intros Hab. unfold RiskLevel_le.
  destruct (determineRiskLevel_cases a) as [[Ha ->] | [[Ha ->] | [[Ha ->] | [Ha ->]]]];
    destruct (determineRiskLevel_cases b) as [[Hb ->] | [[Hb ->] | [[Hb ->] | [Hb ->]]]];
    simpl; try lia; exfalso; lra.
Qed.

(** C1. The score returned by [calculateRiskScore] lies in [0, 10] for every
    user and every activity list; [determineRiskLevel] follows the fixed
    thresholds (at most 2 is LOW, at most 5 is MEDIUM, at most 7 is HIGH,
    CRITICAL above), gives equal levels to equal scores, and is monotone
    for LOW < MEDIUM < HIGH < CRITICAL. *)
Theorem riskScore_in_range_and_level_by_thresholds :
  (forall (now : Z) (user : User) (activities : list AuditLog),
      (0 <= calculateRiskScore now user activities <= 10)%Q)
  /\ (forall score : Q,
         ((score <= 2)%Q -> determineRiskLevel score = LOW)
         /\ ((2 < score <= 5)%Q -> determineRiskLevel score = MEDIUM)
         /\ ((5 < score <= 7)%Q -> determineRiskLevel score = HIGH)
         /\ ((7 < score)%Q -> determineRiskLevel score = CRITICAL))
  /\ (forall a b : Q, (a == b)%Q -> determineRiskLevel a = determineRiskLevel b)
  /\ (forall a b : Q,
         (a <= b)%Q -> RiskLevel_le (determineRiskLevel a) (determineRiskLevel b)).
Proof.
  split; [| split; [| split]].
  - intros now user activities. unfold calculateRiskScore. apply clamp_bounds.
  - intros score.
    destruct (determineRiskLevel_cases score) as [[H ->] | [[H ->] | [[H ->] | [H ->]]]];
      repeat split; intros; try reflexivity; exfalso; lra.
  - intros a b Hab.
    destruct (determineRiskLevel_cases a) as [[Ha ->] | [[Ha ->] | [[Ha ->] | [Ha ->]]]];
      destruct (determineRiskLevel_cases b) as [[Hb ->] | [[Hb ->] | [[Hb ->] | [Hb ->]]]];
      try reflexivity; exfalso; rewrite Hab in Ha; lra.
  - apply determineRiskLevel_monotone.
Qed.

Lemma riskScore_in_range_and_level_by_thresholds_witness :
  (0 <= calculateRiskScore sampleNow tenDayOldUser rapidLogins <= 10)%Q
  /\ determineRiskLevel 2 = LOW
  /\ determineRiskLevel (5 # 2) = MEDIUM
  /\ determineRiskLevel 5 = MEDIUM
  /\ determineRiskLevel (11 # 2) = HIGH
  /\ determineRiskLevel 7 = HIGH
  /\ determineRiskLevel (15 # 2) = CRITICAL
  /\ determineRiskLevel (10 # 4) = determineRiskLevel (5 # 2)
  /\ RiskLevel_le (determineRiskLevel 2) (determineRiskLevel 6).
Proof.
  destruct riskScore_in_range_and_level_by_thresholds
    as (Hrange & Hthresholds & Hequal & Hmonotone).
  split; [apply Hrange |].
  split; [apply (proj1 (Hthresholds 2%Q)); lra |].
  split; [apply (proj1 (proj2 (Hthresholds (5 # 2)%Q))); lra |].
  split; [apply (proj1 (proj2 (Hthresholds 5%Q))); lra |].
  split; [apply (proj1 (proj2 (proj2 (Hthresholds (11 # 2)%Q)))); lra |].
  split; [apply (proj1 (proj2 (proj2 (Hthresholds 7%Q)))); lra |].
  split; [apply (proj2 (proj2 (proj2 (Hthresholds (15 # 2)%Q)))); lra |].
  split; [apply Hequal; reflexivity |].
  apply Hmonotone. lra.
Defined.

End RiskLevels.

(** ** The signals of the risk scorer *)

Section RiskSignals.
Import FraudDetectionService.

Lemma calculateRiskScore_signals (now : Z) (user : User) (activities : list AuditLog) :
  (calculateRiskScore now user activities
   == Qmin (Qmax (accountAgeSignals (accountAgeInDays now user)
                  + activitySignals activities) 0) 10)%Q.
Proof.
  unfold calculateRiskScore, accountAgeSignals, activitySignals.
  apply Q.min_compat; [| reflexivity].
  apply Q.max_compat; [| reflexivity].
  destruct (Qlt_bool (accountAgeInDays now user) 30);
    destruct (Qlt_bool (accountAgeInDays now user) 60);
    destruct (3 <? Set_size (uniqueLoginLocations activities))%nat;
    destruct (3 <? Set_size (uniqueDevices activities))%nat;
    destruct (2 <? length (irregularTimePatterns activities))%nat;
    ring.
Qed.

Lemma activitySignals_range (activities : list AuditLog) :
  (0 <= activitySignals activities <= 5)%Q.
Proof.
  unfold activitySignals.
  set (n := inject_Z (Z.of_nat (length (failedLogins activities)))).
  assert (Hn : (0 <= n)%Q).
  { unfold n. rewrite <- (Zle_Qle 0). lia. }
  assert (Hmin : (0 <= Qmin (n * (1 # 2)) 2 <= 2)%Q).
  { split; [apply Q.min_glb; lra | apply Q.le_min_r]. }
  destruct (3 <? Set_size (uniqueLoginLocations activities))%nat;
    destruct (3 <? Set_size (uniqueDevices activities))%nat;
    destruct (2 <? length (irregularTimePatterns activities))%nat;
    split; lra.
Qed.

(** The sum of the signals never leaves the range: the final clamp changes
    nothing. *)
Lemma calculateRiskScore_unclamped (now : Z) (user : User) (activities : list AuditLog) :
  (calculateRiskScore now user activities
   == accountAgeSignals (accountAgeInDays now user) + activitySignals activities)%Q.
Proof.
  rewrite calculateRiskScore_signals.
  pose proof (activitySignals_range activities) as Hact.
  assert (Hage : (0 <= accountAgeSignals (accountAgeInDays now user) <= 5)%Q).
  { unfold accountAgeSignals.
    destruct (Qlt_bool (accountAgeInDays now user) 30);
      destruct (Qlt_bool (accountAgeInDays now user) 60); split; lra. }
  rewrite Q.max_l by lra. rewrite Q.min_l by lra. reflexivity.
Qed.

End RiskSignals.

(** ** Gaps between consecutive logins *)

Section TimeGaps.
Import FraudDetectionService.

(** The function mapped over [loginTimestamps] by [timeDifferences]. *)
Let difference (all : list Z) (index : nat) (time : Z) : option Z :=
  if (0 <? index)%nat
  then match all !! (index - 1)%nat with
       | Some previous => Some (Z.abs (time - previous))
       | None => None
       end
  else Some 0.

Lemma differences_after (rest before : list Z) (previous : Z) :
  imap (fun index => difference (before ++ previous :: rest) (length before + 1 + index)) rest
  = List.map Some (consecutiveGaps (previous :: rest)).
Proof.
  revert before previous.
  induction rest as [| time rest IH]; intros before previous; [reflexivity |].
  rewrite imap_cons.
  change (consecutiveGaps (previous :: time :: rest))
    with (Z.abs (time - previous) :: consecutiveGaps (time :: rest)).
  cbn [List.map]. f_equal.
  - unfold difference.
    replace (length before + 1 + 0)%nat with (S (length before)) by lia.
    cbn [Nat.ltb Nat.leb].
    replace (S (length before) - 1)%nat with (length before + 0)%nat by lia.
    rewrite lookup_app_r by lia.
    replace (length before + 0 - length before)%nat with 0%nat by lia.
    reflexivity.
  - rewrite <- (IH (before ++ [previous]) time).
    rewrite <- app_assoc. cbn [app].
    apply imap_ext. intros index x _. cbn.
    rewrite length_app. cbn. f_equal. lia.
Qed.

(** [timeDifferences] holds a leading 0 for the first login, then the gaps. *)
Lemma timeDifferences_gaps (timestamps : list Z) :
  timeDifferences timestamps
  = match timestamps with
    | [] => []
    | _ :: _ => Some 0 :: List.map Some (consecutiveGaps timestamps)
    end.
Proof.
  destruct timestamps as [| first rest]; [reflexivity |].
  unfold timeDifferences. rewrite imap_cons. f_equal.
  rewrite <- (differences_after rest [] first).
  apply imap_ext. intros index x _. reflexivity.
Qed.

Lemma unusualGap_Some (gaps : list Z) :
  length (List.filter unusualGap (List.map Some gaps))
  = length (List.filter irregularGap gaps).
Proof.
  induction gaps as [| gap gaps IH]; [reflexivity |].
  cbn [List.map List.filter]. change (unusualGap (Some gap)) with (irregularGap gap).
  destruct (irregularGap gap); cbn [length]; now rewrite IH.
Qed.

(** The number of entries the scorer finds irregular: the irregular gaps,
    and one more as soon as there is a login. *)
Lemma irregularTimePatterns_count (activities : list AuditLog) :
  length (irregularTimePatterns activities)
  = ((if bool_decide (loginTimestamps activities = []) then 0 else 1)
     + irregularGapCount activities)%nat.
Proof.
  unfold irregularTimePatterns, irregularGapCount.
  rewrite timeDifferences_gaps.
  destruct (loginTimestamps activities) as [| first rest] eqn:Hts; [reflexivity |].
  rewrite bool_decide_eq_false_2 by discriminate.
  cbn [List.filter]. change (unusualGap (Some 0)) with true. cbn [length].
  now rewrite unusualGap_Some.
Qed.

End TimeGaps.

(** ** Account age *)

Section AccountAge.
Import FraudDetectionService.

Lemma accountAgeInDays_lt (now : Z) (user : User) (days : Z) :
  (accountAgeInDays now user < inject_Z days)%Q <-> now - createdAt user < days * day.
Proof.
  unfold accountAgeInDays, day.
  set (elapsed := now - createdAt user).
  change (1000 * 3600 * 24) with 86400000.
  assert (Hpos : (0 < inject_Z 86400000)%Q) by (rewrite <- (Zlt_Qlt 0); lia).
  assert (Hdiv : (inject_Z elapsed / inject_Z 86400000 * inject_Z 86400000
                  == inject_Z elapsed)%Q) by (field; lra).
  split; intros H.
  - rewrite Zlt_Qlt, inject_Z_mult, <- Hdiv.
    apply Qmult_lt_r; assumption.
  - apply (Qmult_lt_r _ _ _ Hpos). rewrite Hdiv, <- inject_Z_mult, <- Zlt_Qlt.
    exact H.
Qed.

(** An activity list with no failed login, one location, one device and no
    irregular gap brings nothing to the score. *)
Lemma activitySignals_quiet (activities : list AuditLog) :
  failedLogins activities = [] ->
  Set_size (uniqueLoginLocations activities) = 1%nat ->
  Set_size (uniqueDevices activities) = 1%nat ->
  irregularGapCount activities = 0%nat ->
  (activitySignals activities == 0)%Q.
Proof.
  intros Hfailed Hlocations Hdevices Hgaps.
  unfold activitySignals.
  rewrite Hfailed, Hlocations, Hdevices, irregularTimePatterns_count, Hgaps.
  destruct (bool_decide (loginTimestamps activities = [])); cbn; reflexivity.
Qed.

(** C6. The two account-age signals stack: under 30 days of age the score
    holds both the +3 and the +2; an account created 10 days ago with no
    failed login, one location, one device and no irregular gap scores
    exactly 5, which is MEDIUM. *)
Theorem account_age_signals_stack :
  (forall (now : Z) (user : User) (activities : list AuditLog),
      (accountAgeInDays now user < 30)%Q ->
      (calculateRiskScore now user activities == 3 + 2 + activitySignals activities)%Q)
  /\ (forall (now : Z) (user : User) (activities : list AuditLog),
         now - createdAt user = 10 * day ->
         failedLogins activities = [] ->
         Set_size (uniqueLoginLocations activities) = 1%nat ->
         Set_size (uniqueDevices activities) = 1%nat ->
         irregularGapCount activities = 0%nat ->
         (calculateRiskScore now user activities == 5)%Q
         /\ determineRiskLevel (calculateRiskScore now user activities) = MEDIUM).
Proof.
  assert (Hstack : forall now user activities,
             (accountAgeInDays now user < 30)%Q ->
             (calculateRiskScore now user activities
              == 3 + 2 + activitySignals activities)%Q).
  { intros now user activities Hage.
    rewrite calculateRiskScore_unclamped. unfold accountAgeSignals.
    assert (H60 : (accountAgeInDays now user < 60)%Q) by lra.
    apply Qlt_bool_iff in Hage. apply Qlt_bool_iff in H60.
    rewrite Hage, H60. reflexivity. }
  split; [exact Hstack |].
  intros now user activities Hage Hfailed Hlocations Hdevices Hgaps.
  assert (Hscore : (calculateRiskScore now user activities == 5)%Q).
  { rewrite Hstack.
    - rewrite (activitySignals_quiet activities) by assumption. reflexivity.
    - apply (accountAgeInDays_lt now user 30). rewrite Hage. unfold day. lia. }
  split; [exact Hscore |].
  destruct (determineRiskLevel_cases (calculateRiskScore now user activities))
    as [[H _] | [[_ ->] | [[H _] | [H _]]]];
    try reflexivity; exfalso; rewrite Hscore in H; lra.
Qed.

End AccountAge.

Section Scenarios.
Import FraudDetectionService.

Lemma account_age_signals_stack_witness :
  (calculateRiskScore sampleNow tenDayOldUser quietLogins
   == 3 + 2 + activitySignals quietLogins)%Q
  /\ (calculateRiskScore sampleNow tenDayOldUser quietLogins == 5)%Q
  /\ determineRiskLevel (calculateRiskScore sampleNow tenDayOldUser quietLogins) = MEDIUM.
Proof.
  split.
  - apply (proj1 account_age_signals_stack). vm_compute. reflexivity.
  - apply (proj2 account_age_signals_stack); vm_compute; reflexivity.
Defined.


(** C7, on the code: three logins one second apart have two irregular gaps,
    which is not more than 2, and yet the scorer counts three irregular
    entries and adds the +1 of the time signal: the score of an otherwise
    quiet, old account is 1. *)
Theorem time_signal_counts_first_login :
  irregularGapCount rapidLogins = 2%nat
  /\ length (irregularTimePatterns rapidLogins) = 3%nat
  /\ (activitySignals rapidLogins == 1)%Q
  /\ (calculateRiskScore sampleNow hundredDayOldUser rapidLogins == 1)%Q.
Proof.
  repeat split; vm_compute; reflexivity.
Qed.

End Scenarios.

(** ** Distinct devices and locations *)

Section DistinctValues.
Import FraudDetectionService.

(** [new Set(values).size] is the number of distinct values. *)
Lemma Set_size_distinct (values : list (option string)) :
  Set_size values = distinct values.
Proof.
  unfold Set_size, distinct.
  rewrite <- (size_list_to_set (C := gset (option string)) (remove_dups values))
    by apply NoDup_remove_dups.
  f_equal. apply set_eq. intros v.
  now rewrite !elem_of_list_to_set, elem_of_remove_dups.
Qed.

Lemma distinct_Some (values : list string) :
  distinct (Some <$> values) = distinct values.
Proof.
  unfold distinct. induction values as [| v rest IH]; [reflexivity |].
  cbn [fmap list_fmap remove_dups].
  destruct (decide_rel elem_of (Some v) (Some <$> rest)) as [Hin | Hout];
    destruct (decide_rel elem_of v rest) as [Hin' | Hout']; cbn [length];
    try (now rewrite IH).
  - exfalso. apply Hout'. apply list_elem_of_fmap in Hin.
    destruct Hin as (w & Heq & Hw). now injection Heq as ->.
  - exfalso. apply Hout. apply list_elem_of_fmap. now exists v.
Qed.

(** [filter(Boolean)] keeps the values that are there and are not empty. *)
Lemma filter_truthy_realValues (values : list (option string)) :
  List.filter truthy values = Some <$> realValues values.
Proof.
  unfold realValues, presentValues.
  induction values as [| [v |] rest IH]; [reflexivity | |].
  - cbn [List.filter truthy omap list_omap id]. cbn [List.filter].
    destruct (String.eqb v ""); cbn [negb]; cbn; now rewrite IH.
  - cbn. exact IH.
Qed.

Lemma Set_size_truthy (values : list (option string)) :
  Set_size (List.filter truthy values) = distinct (realValues values).
Proof. now rewrite Set_size_distinct, filter_truthy_realValues, distinct_Some. Qed.

Lemma anyMissing_elem (values : list (option string)) :
  anyMissing values = true <-> None ∈ values.
Proof.
  unfold anyMissing. rewrite existsb_exists. split.
  - intros (v & Hin & Hnone). apply bool_decide_eq_true in Hnone. subst v.
    now apply list_elem_of_In.
  - intros Hin. exists None. split; [now apply list_elem_of_In |].
    now apply bool_decide_eq_true.
Qed.

(** A list of values that may be missing has as many distinct elements as
    there are distinct present values, and one more when a value is
    missing. *)
Lemma distinct_with_missing (values : list (option string)) :
  distinct values
  = (distinct (presentValues values) + (if anyMissing values then 1 else 0))%nat.
Proof.
  unfold distinct, presentValues.
  induction values as [| [v |] rest IH].
  - reflexivity.
  - assert (Hin : Some v ∈ rest <-> v ∈ omap id rest).
    { rewrite list_elem_of_omap. split.
      - intros H. exists (Some v). now split.
      - intros (w & Hw & Heq). cbn in Heq. now subst w. }
    change (anyMissing (Some v :: rest)) with (anyMissing rest).
    cbn [remove_dups omap list_omap id].
    destruct (decide_rel elem_of (Some v) rest) as [H | H];
      destruct (decide_rel elem_of v (omap id rest)) as [H' | H']; cbn [length];
      try (rewrite IH; lia); exfalso; tauto.
  - change (anyMissing (None :: rest)) with true.
    cbn [remove_dups omap list_omap id].
    destruct (decide_rel elem_of None rest) as [H | H]; cbn [length]; rewrite IH.
    + now rewrite (proj2 (anyMissing_elem rest) H).
    + destruct (anyMissing rest) eqn:Hany; [| lia].
      exfalso. apply H. now apply anyMissing_elem.
Qed.

End DistinctValues.


(** ** Outcomes of computations *)

Section Outcomes.
Context {A B : Type}.

Lemma outcome_ret (a : A) : outcome (ret a) = Ok a.
Proof. reflexivity. Qed.

Lemma outcome_throw (e : JsError) : outcome (throw e : M A) = Err e.
Proof. reflexivity. Qed.

Lemma outcome_lift (r : result A) : outcome (lift r) = r.
Proof. reflexivity. Qed.

Lemma outcome_bind (m : M A) (k : A -> M B) :
  outcome (bind m k)
  = match outcome m with
    | Ok a => outcome (k a)
    | Err e => Err e
    end.
Proof.
  destruct m as [console [a | e]]; cbn; [| reflexivity].
  now destruct (k a).
Qed.

Lemma outcome_rethrow (label : string) (m : M A) : outcome (rethrow label m) = outcome m.
Proof. now destruct m as [console [a | e]]. Qed.

Lemma outcome_swallow (label : string) (m : M A) :
  outcome (swallow label m)
  = Ok match outcome m with
       | Ok a => Some a
       | Err _ => None
       end.
Proof. now destruct m as [console [a | e]]. Qed.

End Outcomes.

Create Rewrite HintDb outcome.
#[local] Hint Rewrite @outcome_bind @outcome_rethrow @outcome_swallow @outcome_lift
  @outcome_ret @outcome_throw : outcome.

(** ** Outcomes of Promise.all *)

Section Promises.
Context {A B C : Type}.

(** Two calls of one kind, both settled or both pending: the values, or the
    first rejection of the array. *)
Lemma outcome_Promise_all2_pending (a : M A) (b : M B) :
  outcome (Promise_all2 (Pending a) (Pending b))
  = match outcome a, outcome b with
    | Ok x, Ok y => Ok (x, y)
    | Err e, _ | Ok _, Err e => Err e
    end.
Proof. reflexivity. Qed.

Lemma outcome_Promise_all2_settled (a : M A) (b : M B) :
  outcome (Promise_all2 (Settled a) (Settled b))
  = match outcome a, outcome b with
    | Ok x, Ok y => Ok (x, y)
    | Err e, _ | Ok _, Err e => Err e
    end.
Proof. now destruct a as [? [? | ?]], b as [? [? | ?]]. Qed.

(** Joined with calls that are pending, a call that threw before its first
    [await] decides. *)
Lemma outcome_Promise_all3_third_threw (a : M A) (b : M B) (c : M C) (e : JsError) :
  outcome c = Err e ->
  outcome (Promise_all3 (Pending a) (Pending b) (Settled c)) = Err e.
Proof. destruct c as [? [? | ?]]; [discriminate |]. now intros [= ->]. Qed.

(** A [Promise.all] fulfils only when each of its calls does. *)
Lemma Promise_all2_rejects (a : Promise A) (b : Promise B) :
  (exists e, outcome (settlement a) = Err e) \/ (exists e, outcome (settlement b) = Err e) ->
  exists e, outcome (Promise_all2 a b) = Err e.
Proof.
  destruct a as [[? [? | ?]] | [? [? | ?]]], b as [[? [? | ?]] | [? [? | ?]]]; cbn;
    intros [[e H] | [e H]]; try discriminate; eauto.
Qed.

Lemma Promise_all3_rejects (a : Promise A) (b : Promise B) (c : Promise C) :
  (exists e, outcome (settlement a) = Err e) \/ (exists e, outcome (settlement b) = Err e)
  \/ (exists e, outcome (settlement c) = Err e) ->
  exists e, outcome (Promise_all3 a b c) = Err e.
Proof.
  destruct a as [[? [? | ?]] | [? [? | ?]]], b as [[? [? | ?]] | [? [? | ?]]],
           c as [[? [? | ?]] | [? [? | ?]]]; cbn;
    intros [[e H] | [[e H] | [e H]]]; try discriminate; eauto.
Qed.

End Promises.

(** [log] never throws: it resolves to the saved document, or to
    [undefined] when something failed. *)
Lemma log_outcome (db : Collaborators) (now : Z) (options : option AuditLogService.Options) :
  outcome (AuditLogService.log db now options)
  = Ok match options with
       | Some o =>
           match AuditLogService.save db (AuditLogService.newAuditLog now o) with
           | Ok _ => Some (AuditLogService.newAuditLog now o)
           | Err _ => None
           end
       | None => None
       end.
Proof.
  unfold AuditLogService.log. autorewrite with outcome.
  destruct options as [o |]; [| reflexivity].
  autorewrite with outcome.
  now destruct (AuditLogService.save db (AuditLogService.newAuditLog now o)).
Qed.

(** ** detectSuspiciousUserActivity *)

Section UserActivity.
Import FraudDetectionService.

(** [detectSuspiciousUserActivity] throws on every call, before it has
    asked the store for anything: the cast of the user id is evaluated while
    the array of its [Promise.all] is built. *)
Lemma detectSuspiciousUserActivity_throws (db : Collaborators) (now : Z) (userId : string) :
  detectSuspiciousUserActivity db now userId
  = ([("Advanced suspicious activity detection error:"%string, classCallError)],
     Err classCallError).
Proof. reflexivity. Qed.

(** The two flags of lines 82 to 89, by the number of distinct values. *)
Lemma contextualRisks_distinct (docs : list AuditLog) :
  (multipleDevices (contextualRisks docs) = true
   <-> (2 < distinct (List.map userAgentOf docs))%nat)
  /\ (geographicalInconsistency (contextualRisks docs) = true
      <-> (2 < distinct (List.map locationOf docs))%nat).
Proof.
  unfold contextualRisks. cbn [multipleDevices geographicalInconsistency].
  rewrite !Set_size_distinct. split; apply Nat.ltb_lt.
Qed.

(** The score by the numbers of distinct real locations and devices. *)
Lemma calculateRiskScore_distinct (now : Z) (user : User) (activities : list AuditLog) :
  (calculateRiskScore now user activities
   == accountAgeSignals (accountAgeInDays now user)
      + Qmin (inject_Z (Z.of_nat (length (failedLogins activities))) * (1 # 2)) 2
      + (if (3 <? distinct (realValues (List.map locationOf activities)))%nat then 1 else 0)
      + (if (3 <? distinct (realValues (List.map userAgentOf activities)))%nat then 1 else 0)
      + (if (2 <? length (irregularTimePatterns activities))%nat then 1 else 0))%Q.
Proof.
  rewrite calculateRiskScore_unclamped. unfold activitySignals.
  unfold uniqueLoginLocations, uniqueDevices. rewrite !Set_size_truthy. ring.
Qed.

(** C8, on the code: [detectSuspiciousUserActivity] never gets to its
    contextual flags.  For every store and user it throws where it casts the
    user id, [mongoose.Types.ObjectId(userId)] without [new], so no report
    carries a flag; with three browsers in three places in the last day,
    where the claim has both flags raised, the call throws all the same.
    The expressions that are never reached do read as the claim says: a
    flag is true exactly when more than 2 distinct values occur, missing
    ones included, and the scorer adds its location and device points
    exactly when more than 3 distinct real values occur. *)
Theorem contextual_flags_are_never_computed :
  (forall (db : Collaborators) (now : Z) (userId : string),
      detectSuspiciousUserActivity db now userId
      = ([("Advanced suspicious activity detection error:"%string, classCallError)],
         Err classCallError))
  /\ (distinct (List.map userAgentOf aliceThreeDevices) = 3%nat
      /\ distinct (List.map locationOf aliceThreeDevices) = 3%nat
      /\ outcome (detectSuspiciousUserActivity
                    (MemoryStore.collaborators (aliceStore aliceThreeDevices)) sampleNow alice)
         = Err classCallError)
  /\ (forall docs : list AuditLog,
         (multipleDevices (contextualRisks docs) = true
          <-> (2 < distinct (List.map userAgentOf docs))%nat)
         /\ (geographicalInconsistency (contextualRisks docs) = true
             <-> (2 < distinct (List.map locationOf docs))%nat))
  /\ (forall (now : Z) (user : User) (activities : list AuditLog),
         (calculateRiskScore now user activities
          == accountAgeSignals (accountAgeInDays now user)
             + Qmin (inject_Z (Z.of_nat (length (failedLogins activities))) * (1 # 2)) 2
             + (if (3 <? distinct (realValues (List.map locationOf activities)))%nat
                then 1 else 0)
             + (if (3 <? distinct (realValues (List.map userAgentOf activities)))%nat
                then 1 else 0)
             + (if (2 <? length (irregularTimePatterns activities))%nat then 1 else 0))%Q)
  /\ (multipleDevices (contextualRisks aliceThreeDevices) = true
      /\ geographicalInconsistency (contextualRisks aliceThreeDevices) = true
      /\ (calculateRiskScore sampleNow hundredDayOldUser aliceThreeDevices == 0)%Q).
Proof.
  split; [exact detectSuspiciousUserActivity_throws |].
  split; [repeat split; vm_compute; reflexivity |].
  split; [exact contextualRisks_distinct |].
  split; [exact calculateRiskScore_distinct |].
  repeat split; vm_compute; reflexivity.
Qed.

(** C10, on the code: the sets of the contextual flags are never built,
    because [detectSuspiciousUserActivity] throws at the cast of the user id
    on every call (the defect of C8).  With two browsers and a third event
    that names none, where the claim has [multipleDevices] true, the call
    throws.  The expression that is never reached does what the claim
    says: the set counts the distinct user agents that are there and one
    more when an event has none, while the sets of the scorer count the
    distinct values that are there and not empty. *)
Theorem contextual_sets_are_never_built :
  (forall (db : Collaborators) (now : Z) (userId : string),
      outcome (detectSuspiciousUserActivity db now userId) = Err classCallError)
  /\ (distinct (realValues (List.map userAgentOf aliceTwoDevicesOneMissing)) = 2%nat
      /\ anyMissing (List.map userAgentOf aliceTwoDevicesOneMissing) = true
      /\ multipleDevices (contextualRisks aliceTwoDevicesOneMissing) = true
      /\ detectSuspiciousUserActivity
           (MemoryStore.collaborators (aliceStore aliceTwoDevicesOneMissing)) sampleNow alice
         = ([("Advanced suspicious activity detection error:"%string, classCallError)],
            Err classCallError))
  /\ (forall docs : list AuditLog,
         (multipleDevices (contextualRisks docs) = true
          <-> (2 < distinct (presentValues (List.map userAgentOf docs))
                   + (if anyMissing (List.map userAgentOf docs) then 1 else 0))%nat)
         /\ (geographicalInconsistency (contextualRisks docs) = true
             <-> (2 < distinct (presentValues (List.map locationOf docs))
                      + (if anyMissing (List.map locationOf docs) then 1 else 0))%nat))
  /\ (forall activities : list AuditLog,
         Set_size (uniqueDevices activities)
         = distinct (realValues (List.map userAgentOf activities))
         /\ Set_size (uniqueLoginLocations activities)
            = distinct (realValues (List.map locationOf activities))).
Proof.
  split; [intros db now userId; now rewrite detectSuspiciousUserActivity_throws |].
  split; [repeat split; vm_compute; reflexivity |].
  split.
  - intros docs. destruct (contextualRisks_distinct docs) as [Hdevices Hlocations].
    rewrite Hdevices, Hlocations, !distinct_with_missing. tauto.
  - intros activities. unfold uniqueDevices, uniqueLoginLocations.
    now rewrite !Set_size_truthy.
Qed.

End UserActivity.

(** ** detectIPBasedFraud *)

Section IpFraud.
Import FraudDetectionService.

(** [getLogs] passes [paginate] the filters, page 1 of 50 and the default
    sort, whatever [$group] its options carry. *)
Lemma getLogs_ignores_group (db : Collaborators) (filters : LogFilters) (group : option string) :
  outcome (AuditLogService.getLogs db filters
             {| opt_page := None; opt_limit := None; opt_sort := None; opt_group := group |})
  = AuditLog_paginate db filters 1 50 TimestampDescending.
Proof.
  unfold AuditLogService.getLogs. now autorewrite with outcome.
Qed.

(** [detectIPBasedFraud] throws on every store: no address is ever flagged. *)
Lemma detectIPBasedFraud_throws (db : Collaborators) (now : Z) :
  outcome (detectIPBasedFraud db now)
  = match AuditLog_paginate db (failedWindow now) 1 50 TimestampDescending with
    | Ok _ => Err (TypeError "ipFraudDetection.filter is not a function")
    | Err e => Err e
    end.
Proof.
  unfold detectIPBasedFraud. autorewrite with outcome.
  rewrite getLogs_ignores_group.
  change {| filter_userId := None;
            filter_since := twentyFourHoursAgo now;
            filter_success := Some false |} with (failedWindow now).
  destruct (AuditLog_paginate db (failedWindow now) 1 50 TimestampDescending);
    now autorewrite with outcome.
Qed.

(** C2, on the code: with twelve failed logins from 10.0.0.5 by two users in
    the window, [getLogs] resolves to the page of these twelve documents, not
    to groups by address, and [detectIPBasedFraud] throws instead of
    flagging 10.0.0.5. *)
Theorem detectIPBasedFraud_flags_nothing :
  (exists page,
      AuditLog_paginate (MemoryStore.collaborators failuresStore)
        (failedWindow sampleNow) 1 50 TimestampDescending = Ok page
      /\ length (docs page) = 12%nat
      /\ Forall (fun log => log_ipAddress log = Some "10.0.0.5"%string
                            /\ log_success log = false) (docs page)
      /\ Set_size (List.map log_userId (docs page)) = 2%nat)
  /\ outcome (detectIPBasedFraud (MemoryStore.collaborators failuresStore) sampleNow)
     = Err (TypeError "ipFraudDetection.filter is not a function").
Proof.
  split.
  - eexists. split; [vm_compute; reflexivity |].
    split; [reflexivity |].
    split; [| vm_compute; reflexivity].
    repeat constructor.
  - now rewrite detectIPBasedFraud_throws.
Qed.

End IpFraud.

(** ** The registration guard *)

Section RegistrationGuard.
Import EventSecurityService.

Lemma checkRegistrationRateLimit_outcome (db : Collaborators) (now : Z)
    (userId eventId : string) :
  outcome (checkRegistrationRateLimit db now userId eventId)
  = match Event_countDocuments db userId (twentyFourHoursAgo now) with
    | Ok recentRegistrations =>
        Ok (if (10 <=? recentRegistrations)%nat then rateLimitExceeded else rateLimitOk)
    | Err e => Err e
    end.
Proof.
  unfold checkRegistrationRateLimit. autorewrite with outcome.
  destruct (Event_countDocuments db userId (twentyFourHoursAgo now)) as [n | e];
    [| reflexivity].
  destruct (10 <=? n)%nat; autorewrite with outcome; [| reflexivity].
  now rewrite log_outcome.
Qed.

Lemma assessRegistrationRisk_flag (db : Collaborators) (now : Z)
    (userId eventId : string) (assessment : RiskAssessment) :
  outcome (assessRegistrationRisk db now userId eventId) = Ok assessment ->
  requiresAdditionalVerification assessment = negb (isLOW (riskLevel assessment))
  /\ riskLevel assessment <> CRITICAL.
Proof.
  unfold assessRegistrationRisk. autorewrite with outcome.
  destruct (User_findById db userId) as [[user |] | e]; autorewrite with outcome;
    destruct (Event_findById db eventId) as [[event |] | e']; try discriminate.
  cbv zeta. autorewrite with outcome. rewrite log_outcome.
  intros [= <-]. cbn [requiresAdditionalVerification riskLevel].
  split; [reflexivity |].
  repeat match goal with |- context [if ?c then _ else _] => destruct c end; discriminate.
Qed.

(** [detectSuspiciousRegistrations] throws on every call, before it has
    asked the store for anything: [mongoose] is not bound in its module. *)
Lemma detectSuspiciousRegistrations_throws (db : Collaborators) (eventId : string) :
  detectSuspiciousRegistrations db eventId
  = ([("Suspicious registration detection error:"%string, unboundMongoose)],
     Err unboundMongoose).
Proof. reflexivity. Qed.

(** The promise of the scan is rejected when [Promise.all] gets it, and the
    other two checks are still waiting for the store: the guard re-throws
    the error of the scan whatever they do. *)
Lemma performEventSecurityCheck_throws (db : Collaborators) (now : Z)
    (userId eventId : string) :
  outcome (performEventSecurityCheck db now userId eventId) = Err unboundMongoose.
Proof.
  unfold performEventSecurityCheck. autorewrite with outcome.
  now rewrite (outcome_Promise_all3_third_threw _ _ _ unboundMongoose).
Qed.

End RegistrationGuard.

Section GuardDecision.
Import EventSecurityService.

(** C3, on the code: the guard never takes the decision
    [rateLimit.allowed && !suspiciousRegistrations.potentialFraud].  Its
    scan of the registrations, [detectSuspiciousRegistrations], throws
    [ReferenceError: mongoose is not defined] on every call, because
    eventSecurityService.js uses [mongoose.Types.ObjectId] and never
    requires mongoose; [performEventSecurityCheck] awaits the scan and
    re-throws.  For a user under the limit and an event that nobody joined,
    where the claim gives [allowed = true], the rate limit passes, the risk
    is assessed, and the guard throws. *)
Theorem guard_takes_no_decision :
  (forall (db : Collaborators) (eventId : string),
      detectSuspiciousRegistrations db eventId
      = ([("Suspicious registration detection error:"%string, unboundMongoose)],
         Err unboundMongoose))
  /\ (forall (db : Collaborators) (now : Z) (userId eventId : string),
         outcome (performEventSecurityCheck db now userId eventId) = Err unboundMongoose)
  /\ (outcome (checkRegistrationRateLimit (MemoryStore.collaborators (aliceStore []))
                 sampleNow alice gala)
      = Ok rateLimitOk
      /\ (exists assessment,
             outcome (assessRegistrationRisk (MemoryStore.collaborators (aliceStore []))
                        sampleNow alice gala)
             = Ok assessment)
      /\ participants openEvent = []
      /\ outcome (performEventSecurityCheck (MemoryStore.collaborators (aliceStore []))
                    sampleNow alice gala)
         = Err unboundMongoose).
Proof.
  split; [exact detectSuspiciousRegistrations_throws |].
  split; [exact performEventSecurityCheck_throws |].
  split; [vm_compute; reflexivity |].
  split; [eexists; vm_compute; reflexivity |].
  split; [reflexivity | apply performEventSecurityCheck_throws].
Qed.

End GuardDecision.

Section GuardRateLimit.
Import EventSecurityService.

(** What [Event.countDocuments({ participants, createdAt: { $gte } })] counts
    in the store: the events created in the window that list the user.  An
    event created before the window is not counted, whenever the user joined
    it. *)
Lemma countDocuments_older_events (st : MemoryStore.State) (userId : string) (since : Z) :
  (forall id event, MemoryStore.events st !! id = Some event ->
                    userId ∈ participants event -> event_createdAt event < since) ->
  MemoryStore.countDocuments st userId since = Ok 0%nat.
Proof.
  intros Holder. unfold MemoryStore.countDocuments. f_equal.
  apply length_zero_iff_nil.
  assert (Hnone : forall entry : string * Event,
             In entry (map_to_list (MemoryStore.events st)) ->
             bool_decide (userId ∈ participants entry.2) && (since <=? event_createdAt entry.2)
             = false).
  { intros [id event] Hin. apply list_elem_of_In, elem_of_map_to_list in Hin.
    cbn [snd]. destruct (bool_decide_reflect (userId ∈ participants event)) as [Hjoined |];
      [| reflexivity].
    specialize (Holder id event Hin Hjoined). cbn [andb]. apply Z.leb_gt. exact Holder. }
  induction (map_to_list (MemoryStore.events st)) as [| entry rest IH]; [reflexivity |].
  cbn [List.filter]. rewrite (Hnone entry) by now left.
  apply IH. intros other Hother. apply Hnone. now right.
Qed.

(** C4, on the code: the guard returns neither [allowed == false] nor
    [allowed == true], whatever the count and the risk level, because its
    scan throws on every call (the defect of C3).  Its rate-limit step,
    taken alone, does not count registrations of the last 24 hours either:
    it counts the events created in the last 24 hours that list the user,
    so a user who joined twelve older events today is under the limit. *)
Theorem guard_neither_blocks_nor_steps_up :
  (forall (db : Collaborators) (now : Z) (userId eventId : string)
          (decision : SecurityCheck),
      outcome (performEventSecurityCheck db now userId eventId) <> Ok decision)
  /\ (outcome (checkRegistrationRateLimit
                 (MemoryStore.collaborators (registrationsStore 3600000)) sampleNow alice gala)
      = Ok rateLimitExceeded
      /\ outcome (performEventSecurityCheck
                    (MemoryStore.collaborators (registrationsStore 3600000)) sampleNow alice gala)
         = Err unboundMongoose)
  /\ (length (twelveEventsOf (30 * day)) = 12%nat
      /\ Forall (fun entry => alice ∈ participants entry.2) (twelveEventsOf (30 * day))
      /\ outcome (checkRegistrationRateLimit
                    (MemoryStore.collaborators (registrationsStore (30 * day)))
                    sampleNow alice gala)
         = Ok rateLimitOk)
  /\ (forall (st : MemoryStore.State) (now : Z) (userId eventId : string),
         (forall id event, MemoryStore.events st !! id = Some event ->
                           userId ∈ participants event ->
                           event_createdAt event < twentyFourHoursAgo now) ->
         outcome (checkRegistrationRateLimit (MemoryStore.collaborators st) now userId eventId)
         = Ok rateLimitOk)
  /\ (outcome (assessRegistrationRisk (MemoryStore.collaborators (aliceStore []))
                 sampleNow alice gala)
      = Ok {| riskLevel := MEDIUM; riskScore := 0 + 2 + 1;
              requiresAdditionalVerification := true |}
      /\ outcome (performEventSecurityCheck (MemoryStore.collaborators (aliceStore []))
                    sampleNow alice gala)
         = Err unboundMongoose).
Proof.
  split.
  { intros db now userId eventId decision.
    rewrite performEventSecurityCheck_throws. discriminate. }
  split.
  { split; [vm_compute; reflexivity | apply performEventSecurityCheck_throws]. }
  split.
  { split; [reflexivity |]. split; [| vm_compute; reflexivity].
    unfold twelveEventsOf. cbn [seq List.map]. repeat constructor; cbn; set_solver. }
  split.
  { intros st now userId eventId Holder.
    rewrite checkRegistrationRateLimit_outcome.
    cbn [MemoryStore.collaborators Event_countDocuments].
    now rewrite (countDocuments_older_events st userId _ Holder). }
  split; [vm_compute; reflexivity | apply performEventSecurityCheck_throws].
Qed.

End GuardRateLimit.

(** ** The audit sink *)

Section AuditSink.
Import EventSecurityService FraudDetectionService.

Lemma assessRegistrationRisk_sink (db : Collaborators) (insert : AuditLog -> result unit)
    (now : Z) (userId eventId : string) :
  outcome (assessRegistrationRisk (withSink db insert) now userId eventId)
  = outcome (assessRegistrationRisk db now userId eventId).
Proof.
  unfold assessRegistrationRisk. autorewrite with outcome.
  cbn [withSink User_findById Event_findById].
  destruct (User_findById db userId) as [[user |] | e]; autorewrite with outcome;
    destruct (Event_findById db eventId) as [[event |] | e']; try reflexivity;
    cbv zeta; autorewrite with outcome; now rewrite !log_outcome.
Qed.

(** C9. [AuditLogService.log] never throws: on every input it returns; when
    the write of the entry fails the error is written to the console and the
    call returns [undefined].  The outcome of the decision paths that log
    (rate limit, registration risk, the guard, the user-activity detector)
    is the same whatever the audit sink does. *)
Theorem audit_log_failure_is_swallowed :
  (forall (db : Collaborators) (now : Z) (options : option AuditLogService.Options),
      exists entry, outcome (AuditLogService.log db now options) = Ok entry)
  /\ (forall (db : Collaborators) (now : Z) (o : AuditLogService.Options) (e : JsError),
         AuditLogService.save db (AuditLogService.newAuditLog now o) = Err e ->
         AuditLogService.log db now (Some o) = ([("Audit log error:"%string, e)], Ok None))
  /\ (forall (db : Collaborators) (insert : AuditLog -> result unit) (now : Z)
             (userId eventId : string),
         outcome (checkRegistrationRateLimit (withSink db insert) now userId eventId)
         = outcome (checkRegistrationRateLimit db now userId eventId)
         /\ outcome (assessRegistrationRisk (withSink db insert) now userId eventId)
            = outcome (assessRegistrationRisk db now userId eventId)
         /\ outcome (performEventSecurityCheck (withSink db insert) now userId eventId)
            = outcome (performEventSecurityCheck db now userId eventId)
         /\ outcome (detectSuspiciousUserActivity (withSink db insert) now userId)
            = outcome (detectSuspiciousUserActivity db now userId)).
Proof.
  split; [| split].
  - intros db now options. rewrite log_outcome. eauto.
  - intros db now o e Hsave. unfold AuditLogService.log. cbv zeta.
    rewrite Hsave. reflexivity.
  - intros db insert now userId eventId.
    assert (Hrate : outcome (checkRegistrationRateLimit (withSink db insert) now userId eventId)
                    = outcome (checkRegistrationRateLimit db now userId eventId))
      by now rewrite !checkRegistrationRateLimit_outcome.
    pose proof (assessRegistrationRisk_sink db insert now userId eventId) as Hrisk.
    split; [exact Hrate |]. split; [exact Hrisk |]. split.
    + now rewrite !performEventSecurityCheck_throws.
    + now rewrite !detectSuspiciousUserActivity_throws.
Qed.

Lemma audit_log_failure_is_swallowed_witness :
  AuditLogService.log (MemoryStore.collaborators sinkDownStore) sampleNow (Some loginRecord)
  = ([("Audit log error:"%string, StoreError "audit_logs: connection lost")], Ok None)
  /\ outcome (assessRegistrationRisk (MemoryStore.collaborators sinkDownStore)
                sampleNow "u1" "e1")
     = outcome (assessRegistrationRisk (MemoryStore.collaborators calmStore)
                  sampleNow "u1" "e1").
Proof.
  split.
  - apply (proj1 (proj2 audit_log_failure_is_swallowed)). vm_compute. reflexivity.
  - apply (proj1 (proj2 (proj2 (proj2 audit_log_failure_is_swallowed)
                           (MemoryStore.collaborators calmStore)
                           (MemoryStore.insert sinkDownStore)
                           sampleNow "u1"%string "e1"%string))).
Defined.

End AuditSink.

(** ** The event access token *)

Section Strings.
Local Open Scope string_scope.

Lemma list_ascii_of_append (a b : string) :
  list_ascii_of_string (a ++ b) = (list_ascii_of_string a ++ list_ascii_of_string b)%list.
Proof.
  induction a as [| c a IH]; [reflexivity |].
  change (String c a ++ b) with (String c (a ++ b)). cbn. now rewrite IH.
Qed.

Lemma append_inv_tail (a b s : string) : a ++ s = b ++ s -> a = b.
Proof.
  intros H. apply (f_equal list_ascii_of_string) in H.
  rewrite !list_ascii_of_append in H. apply app_inv_tail in H.
  rewrite <- (string_of_list_ascii_of_string a), <- (string_of_list_ascii_of_string b).
  now rewrite H.
Qed.

Lemma append_inv_head (s a b : string) : s ++ a = s ++ b -> a = b.
Proof. apply (inj (String.append s)). Qed.

Lemma to_int_not_nil (n : Z) : Z.to_int n <> Decimal.Pos Decimal.Nil /\ Z.to_int n <> Decimal.Neg Decimal.Nil.
Proof.
  destruct n as [| p | p]; cbn; split; try discriminate;
    intros [= H]; now apply DecimalPos.Unsigned.to_uint_nonnil in H.
Qed.

Lemma stringify_number_inj (a b : Z) :
  JSON.stringify_number a = JSON.stringify_number b -> a = b.
Proof.
  unfold JSON.stringify_number. intros H.
  apply (f_equal NilZero.int_of_string) in H.
  destruct (to_int_not_nil a) as [Ha1 Ha2], (to_int_not_nil b) as [Hb1 Hb2].
  rewrite !NilZero.isi in H by assumption.
  injection H as H. apply (f_equal Z.of_int) in H.
  now rewrite !DecimalZ.of_to in H.
Qed.

End Strings.

Section AccessToken.
Import EventSecurityService.
Local Open Scope string_scope.





End AccessToken.

(** ** Further properties *)

Section Further.
Import FraudDetectionService EventSecurityService.

(** X1. [detectIPBasedFraud] throws whatever the store holds and does: when
    [paginate] resolves, its page object has no [filter]; when it rejects,
    the rejection is re-thrown. *)
Theorem detectIPBasedFraud_never_returns (db : Collaborators) (now : Z) :
  exists e, outcome (detectIPBasedFraud db now) = Err e.
Proof.
  rewrite detectIPBasedFraud_throws.
  destruct (AuditLog_paginate db (failedWindow now) 1 50 TimestampDescending); eauto.
Qed.

(** X4. The signals of [calculateRiskScore] sum to a value of [0, 10]: the
    final clamp never changes the score. *)
Theorem riskScore_is_sum_of_signals (now : Z) (user : User) (activities : list AuditLog) :
  (calculateRiskScore now user activities
   == accountAgeSignals (accountAgeInDays now user) + activitySignals activities)%Q
  /\ (0 <= accountAgeSignals (accountAgeInDays now user) + activitySignals activities <= 10)%Q.
Proof.
  split; [apply calculateRiskScore_unclamped |].
  rewrite <- calculateRiskScore_unclamped. apply clamp_bounds.
Qed.

(** X5. What [assessRegistrationRisk] returns is LOW, MEDIUM or HIGH, never
    CRITICAL, and asks for additional verification exactly when the level is
    not LOW. *)
Theorem registration_risk_levels (db : Collaborators) (now : Z) (userId eventId : string)
    (assessment : RiskAssessment) :
  outcome (assessRegistrationRisk db now userId eventId) = Ok assessment ->
  riskLevel assessment <> CRITICAL
  /\ (requiresAdditionalVerification assessment = true <-> riskLevel assessment <> LOW).
Proof.
  intros H. destruct (assessRegistrationRisk_flag _ _ _ _ _ H) as [-> Hcritical].
  split; [exact Hcritical |].
  destruct (riskLevel assessment); cbn; split; congruence.
Qed.

Lemma registration_risk_levels_witness :
  exists assessment,
    outcome (assessRegistrationRisk (MemoryStore.collaborators calmStore) sampleNow "u1" "e1")
    = Ok assessment
    /\ riskLevel assessment <> CRITICAL
    /\ (requiresAdditionalVerification assessment = true <-> riskLevel assessment <> LOW).
Proof.
  eexists. split; [vm_compute; reflexivity |].
  apply (registration_risk_levels (MemoryStore.collaborators calmStore) sampleNow
           "u1"%string "e1"%string).
  vm_compute. reflexivity.
Defined.

End Further.

(** ** Risk levels and account age *)

Section LevelsByAge.
Import FraudDetectionService.

Lemma determineRiskLevel_le_MEDIUM (score : Q) :
  (score <= 5)%Q -> RiskLevel_le (determineRiskLevel score) MEDIUM.
Proof.
  intros H. unfold RiskLevel_le.
  destruct (determineRiskLevel_cases score) as [[_ ->] | [[_ ->] | [[H' _] | [H' _]]]];
    cbn; try lia; exfalso; lra.
Qed.

Lemma determineRiskLevel_le_HIGH (score : Q) :
  (score <= 7)%Q -> RiskLevel_le (determineRiskLevel score) HIGH.
Proof.
  intros H. unfold RiskLevel_le.
  destruct (determineRiskLevel_cases score) as [[_ ->] | [[_ ->] | [[_ ->] | [H' _]]]];
    cbn; try lia; exfalso; lra.
Qed.

Lemma determineRiskLevel_ge_MEDIUM (score : Q) :
  (2 < score)%Q -> RiskLevel_le MEDIUM (determineRiskLevel score).
Proof.
  intros H. unfold RiskLevel_le.
  destruct (determineRiskLevel_cases score) as [[H' _] | [[_ ->] | [[_ ->] | [_ ->]]]];
    cbn; try lia; exfalso; lra.
Qed.

Lemma determineRiskLevel_Qeq (a b : Q) :
  (a == b)%Q -> determineRiskLevel a = determineRiskLevel b.
Proof.
  intros Hab.
  destruct (determineRiskLevel_cases a) as [[Ha ->] | [[Ha ->] | [[Ha ->] | [Ha ->]]]];
    destruct (determineRiskLevel_cases b) as [[Hb ->] | [[Hb ->] | [[Hb ->] | [Hb ->]]]];
    try reflexivity; exfalso; rewrite Hab in Ha; lra.
Qed.

(** X6. The account age bounds the level whatever the activity: an account
    of 60 days or more is never rated above MEDIUM, one of 30 days or more
    never CRITICAL, and one under 30 days never LOW. *)
Theorem risk_level_bounded_by_account_age :
  forall (now : Z) (user : User) (activities : list AuditLog),
    ((60 <= accountAgeInDays now user)%Q ->
     RiskLevel_le (determineRiskLevel (calculateRiskScore now user activities)) MEDIUM)
    /\ ((30 <= accountAgeInDays now user)%Q ->
        RiskLevel_le (determineRiskLevel (calculateRiskScore now user activities)) HIGH)
    /\ ((accountAgeInDays now user < 30)%Q ->
        RiskLevel_le MEDIUM (determineRiskLevel (calculateRiskScore now user activities))).
Proof.
  intros now user activities.
  pose proof (calculateRiskScore_unclamped now user activities) as Hscore.
  pose proof (activitySignals_range activities) as Hrange.
  unfold accountAgeSignals in Hscore.
  split; [| split]; intros Hage.
  - apply determineRiskLevel_le_MEDIUM. rewrite Hscore.
    rewrite (proj2 (Qlt_bool_false_iff _ 30)) by lra.
    rewrite (proj2 (Qlt_bool_false_iff _ 60)) by lra. lra.
  - apply determineRiskLevel_le_HIGH. rewrite Hscore.
    rewrite (proj2 (Qlt_bool_false_iff _ 30)) by lra.
    destruct (Qlt_bool (accountAgeInDays now user) 60); lra.
  - apply determineRiskLevel_ge_MEDIUM. rewrite Hscore.
    rewrite (proj2 (Qlt_bool_iff _ 30)) by lra.
    rewrite (proj2 (Qlt_bool_iff _ 60)) by lra. lra.
Qed.

Lemma risk_level_bounded_by_account_age_witness :
  RiskLevel_le (determineRiskLevel (calculateRiskScore sampleNow hundredDayOldUser rapidLogins))
    MEDIUM
  /\ RiskLevel_le MEDIUM
       (determineRiskLevel (calculateRiskScore sampleNow tenDayOldUser quietLogins)).
Proof.
  split.
  - apply (proj1 (risk_level_bounded_by_account_age sampleNow hundredDayOldUser rapidLogins)).
    vm_compute. discriminate.
  - apply (proj2 (proj2 (risk_level_bounded_by_account_age sampleNow tenDayOldUser quietLogins))).
    vm_compute. reflexivity.
Defined.

(** X7. With no recorded event the score is that of the account age alone:
    5 under 30 days, 2 from 30 to under 60 days, 0 from 60 days on; only the
    first is not LOW. *)
Theorem no_activity_scores_account_age_only :
  forall (now : Z) (user : User),
    ((accountAgeInDays now user < 30)%Q ->
     (calculateRiskScore now user [] == 5)%Q
     /\ determineRiskLevel (calculateRiskScore now user []) = MEDIUM)
    /\ ((30 <= accountAgeInDays now user < 60)%Q ->
        (calculateRiskScore now user [] == 2)%Q
        /\ determineRiskLevel (calculateRiskScore now user []) = LOW)
    /\ ((60 <= accountAgeInDays now user)%Q ->
        (calculateRiskScore now user [] == 0)%Q
        /\ determineRiskLevel (calculateRiskScore now user []) = LOW).
Proof.
  intros now user.
  assert (Hscore : (calculateRiskScore now user []
                    == accountAgeSignals (accountAgeInDays now user))%Q).
  { rewrite calculateRiskScore_unclamped.
    assert (Hquiet : (activitySignals [] == 0)%Q) by (vm_compute; reflexivity).
    rewrite Hquiet. ring. }
  assert (Hlevel : forall expected level,
             (calculateRiskScore now user [] == expected)%Q ->
             determineRiskLevel expected = level ->
             determineRiskLevel (calculateRiskScore now user []) = level).
  { intros expected level Heq <-. now apply determineRiskLevel_Qeq. }
  unfold accountAgeSignals in Hscore.
  split; [| split]; intros Hage; split.
  - rewrite Hscore, (proj2 (Qlt_bool_iff _ 30)), (proj2 (Qlt_bool_iff _ 60)) by lra.
    reflexivity.
  - apply (Hlevel 5%Q); [| reflexivity].
    rewrite Hscore, (proj2 (Qlt_bool_iff _ 30)), (proj2 (Qlt_bool_iff _ 60)) by lra.
    reflexivity.
  - rewrite Hscore, (proj2 (Qlt_bool_false_iff _ 30)), (proj2 (Qlt_bool_iff _ 60)) by lra.
    reflexivity.
  - apply (Hlevel 2%Q); [| reflexivity].
    rewrite Hscore, (proj2 (Qlt_bool_false_iff _ 30)), (proj2 (Qlt_bool_iff _ 60)) by lra.
    reflexivity.
  - rewrite Hscore, (proj2 (Qlt_bool_false_iff _ 30)), (proj2 (Qlt_bool_false_iff _ 60))
      by lra.
    reflexivity.
  - apply (Hlevel 0%Q); [| reflexivity].
    rewrite Hscore, (proj2 (Qlt_bool_false_iff _ 30)), (proj2 (Qlt_bool_false_iff _ 60))
      by lra.
    reflexivity.
Qed.

End LevelsByAge.

Section LevelsByAgeScenarios.
Import FraudDetectionService.

Lemma no_activity_scores_account_age_only_witness :
  (calculateRiskScore sampleNow tenDayOldUser [] == 5)%Q
  /\ determineRiskLevel (calculateRiskScore sampleNow tenDayOldUser []) = MEDIUM
  /\ (calculateRiskScore sampleNow hundredDayOldUser [] == 0)%Q
  /\ determineRiskLevel (calculateRiskScore sampleNow hundredDayOldUser []) = LOW.
Proof.
  destruct (proj1 (no_activity_scores_account_age_only sampleNow tenDayOldUser))
    as [Hscore Hlevel]; [vm_compute; reflexivity |].
  destruct (proj2 (proj2 (no_activity_scores_account_age_only sampleNow hundredDayOldUser)))
    as [Hscore' Hlevel']; [vm_compute; discriminate |].
  auto.
Defined.

End LevelsByAgeScenarios.

(** ** Unknown users and events *)

Section UnknownSubjects.
Import FraudDetectionService EventSecurityService.

(** X8. An unknown user or event is not reported as such.  When [findById]
    resolves to [null], [assessRegistrationRisk] throws the [TypeError] of
    reading a property of [null]: [createdAt] for the user, [participants]
    for the event.  [detectSuspiciousUserActivity] throws the [TypeError] of
    its cast for every user id, known or not. *)
Theorem unknown_subject_is_a_TypeError :
  (forall (db : Collaborators) (now : Z) (userId eventId : string) (event : option Event),
      User_findById db userId = Ok None ->
      Event_findById db eventId = Ok event ->
      outcome (assessRegistrationRisk db now userId eventId)
      = Err (TypeError "Cannot read properties of null (reading 'createdAt')"))
  /\ (forall (db : Collaborators) (now : Z) (userId eventId : string) (user : User),
         User_findById db userId = Ok (Some user) ->
         Event_findById db eventId = Ok None ->
         outcome (assessRegistrationRisk db now userId eventId)
         = Err (TypeError "Cannot read properties of null (reading 'participants')"))
  /\ (forall (db : Collaborators) (now : Z) (userId : string),
         outcome (detectSuspiciousUserActivity db now userId) = Err classCallError).
Proof.
  split; [| split].
  - intros db now userId eventId event Huser Hevent.
    unfold assessRegistrationRisk. autorewrite with outcome.
    rewrite Huser. autorewrite with outcome. now rewrite Hevent.
  - intros db now userId eventId user Huser Hevent.
    unfold assessRegistrationRisk. autorewrite with outcome.
    rewrite Huser. autorewrite with outcome. now rewrite Hevent.
  - intros db now userId. now rewrite detectSuspiciousUserActivity_throws.
Qed.

Lemma unknown_subject_is_a_TypeError_witness :
  outcome (assessRegistrationRisk (MemoryStore.collaborators (aliceStore [])) sampleNow
             stranger gala)
  = Err (TypeError "Cannot read properties of null (reading 'createdAt')")
  /\ outcome (assessRegistrationRisk (MemoryStore.collaborators (aliceStore [])) sampleNow
                alice unlisted)
     = Err (TypeError "Cannot read properties of null (reading 'participants')").
Proof.
  split.
  - apply (proj1 unknown_subject_is_a_TypeError
             (MemoryStore.collaborators (aliceStore [])) sampleNow stranger gala
             (Some openEvent));
      vm_compute; reflexivity.
  - apply (proj1 (proj2 unknown_subject_is_a_TypeError)
             (MemoryStore.collaborators (aliceStore [])) sampleNow alice unlisted
             tenDayOldUser);
      vm_compute; reflexivity.
Defined.

End UnknownSubjects.

(** ** The signals of the registration risk *)

Section RegistrationRisk.
Import FraudDetectionService EventSecurityService.

(** Above a positive capacity, "more than 90% full" is a comparison of counts. *)
Lemma registrationAboveNinetyPercent_counts (event : Event) (seats : Z) :
  capacity event = Some seats -> 0 < seats ->
  registrationAboveNinetyPercent event = true
  <-> 9 * seats < 10 * Z.of_nat (length (participants event)).
Proof.
  intros Hcapacity Hseats. unfold registrationAboveNinetyPercent. rewrite Hcapacity.
  destruct (Z.eqb_spec seats 0) as [-> | _]; [lia |].
  rewrite Qlt_bool_iff.
  set (registered := Z.of_nat (length (participants event))).
  assert (Hpos : (0 < inject_Z seats)%Q) by (rewrite <- (Zlt_Qlt 0); exact Hseats).
  assert (Hdiv : (inject_Z registered / inject_Z seats * inject_Z seats
                  == inject_Z registered)%Q) by (field; lra).
  rewrite Zlt_Qlt, !inject_Z_mult.
  change (inject_Z 9) with 9%Q. change (inject_Z 10) with 10%Q.
  split; intros H.
  - apply (Qmult_lt_r _ _ _ Hpos) in H. rewrite Hdiv in H.
    assert (H9 : ((9 # 10) * inject_Z seats == 9 * inject_Z seats / 10)%Q) by (field; lra).
    lra.
  - apply (Qmult_lt_r _ _ _ Hpos). rewrite Hdiv.
    lra.
Qed.

(** X9. The level of [assessRegistrationRisk], once the user and the event
    are found, is decided by three facts only: the account is under 30 days
    old (2 points), the user registered for fewer than 3 events (1 point),
    the event is more than 90% full (1 point).  The score is the sum of the
    points.  HIGH needs all three; LOW is an account of 30 days or more that
    is not both a newcomer and at a crowded event; everything else is
    MEDIUM. *)
Theorem registration_risk_by_signals (db : Collaborators) (now : Z)
    (userId eventId : string) (user : User) (event : Event) :
  User_findById db userId = Ok (Some user) ->
  Event_findById db eventId = Ok (Some event) ->
  let young := now - createdAt user < 30 * day in
  let newcomer := (length (registeredEvents user) < 3)%nat in
  let crowded := registrationAboveNinetyPercent event = true in
  exists assessment,
    outcome (assessRegistrationRisk db now userId eventId) = Ok assessment
    /\ (riskLevel assessment = HIGH <-> young /\ newcomer /\ crowded)
    /\ (riskLevel assessment = LOW <-> ~ young /\ ~ (newcomer /\ crowded))
    /\ (0 <= riskScore assessment <= 4)%Q
    /\ (riskLevel assessment = MEDIUM
        <-> (young /\ ~ (newcomer /\ crowded)) \/ (~ young /\ newcomer /\ crowded))
    /\ (riskScore assessment
        == (if now - createdAt user <? 30 * day then 2 else 0)
           + (if (length (registeredEvents user) <? 3)%nat then 1 else 0)
           + (if registrationAboveNinetyPercent event then 1 else 0))%Q.
Proof.
  intros Huser Hevent young newcomer crowded.
  unfold assessRegistrationRisk. autorewrite with outcome.
  rewrite Huser. autorewrite with outcome. rewrite Hevent. cbv zeta.
  autorewrite with outcome. rewrite log_outcome.
  eexists. split; [reflexivity |]. cbn [riskLevel riskScore].
  fold (accountAgeInDays now user).
  assert (Hyoung : Qlt_bool (accountAgeInDays now user) 30 = true <-> young).
  { rewrite Qlt_bool_iff. apply (accountAgeInDays_lt now user 30). }
  assert (Hnewcomer : (length (registeredEvents user) <? 3)%nat = true <-> newcomer)
    by apply Nat.ltb_lt.
  assert (Hcrowded : registrationAboveNinetyPercent event = true <-> crowded) by reflexivity.
  assert (Hmillis : (now - createdAt user <? 30 * day)
                    = Qlt_bool (accountAgeInDays now user) 30).
  { destruct (Z.ltb_spec (now - createdAt user) (30 * day)) as [Hlt | Hge];
      destruct (Qlt_bool (accountAgeInDays now user) 30) eqn:Hbool; try reflexivity.
    - apply Hyoung in Hlt. congruence.
    - assert (Hlt : young) by now apply Hyoung. unfold young in Hlt. lia. }
  rewrite Hmillis.
  clearbody young newcomer crowded. clear Hmillis.
  destruct (Qlt_bool (accountAgeInDays now user) 30);
    destruct (length (registeredEvents user) <? 3)%nat;
    destruct (registrationAboveNinetyPercent event);
    repeat match goal with
           | |- context [Qlt_bool ?a ?b] =>
               let v := eval vm_compute in (Qlt_bool a b) in
               change (Qlt_bool a b) with v
           end;
    cbv iota;
    (split; [| split; [| split; [vm_compute; split; discriminate
                                | split; [| vm_compute; reflexivity]]]]);
    (split; [try discriminate; intros _ | try (intros _; reflexivity)]);
    intuition discriminate.
Qed.

Lemma registration_risk_by_signals_witness :
  exists assessment,
    outcome (assessRegistrationRisk (MemoryStore.collaborators (aliceStore [])) sampleNow
               alice gala)
    = Ok assessment
    /\ riskLevel assessment = MEDIUM /\ (riskScore assessment == 3)%Q.
Proof.
  destruct (registration_risk_by_signals (MemoryStore.collaborators (aliceStore [])) sampleNow
              alice gala tenDayOldUser openEvent)
    as (assessment & Hreturned & _ & _ & _ & Hmedium & Hscore);
    [vm_compute; reflexivity | vm_compute; reflexivity |].
  exists assessment. split; [exact Hreturned |]. split.
  - apply Hmedium. left. split; [vm_compute; reflexivity |].
    intros [_ Hcrowded]. vm_compute in Hcrowded. discriminate.
  - rewrite Hscore. vm_compute. reflexivity.
Defined.

End RegistrationRisk.

(** ** What reaches the audit collection *)

Section AuditEntries.
Import FraudDetectionService EventSecurityService.

Lemma existsb_eqb_In (a : string) (l : list string) :
  existsb (String.eqb a) l = true <-> In a l.
Proof.
  rewrite existsb_exists. split.
  - intros (b & Hin & Heq). apply String.eqb_eq in Heq. now subst.
  - intros Hin. exists a. split; [exact Hin | apply String.eqb_refl].
Qed.

(** X10. [log] resolves to a document exactly when the document passed the
    schema and was written: the caller gave a user id that mongoose casts to
    an ObjectId and an action of the schema's enum, and the write succeeded.
    The document is then the one built from the options, stamped with the
    time of the call, with [success] defaulting to [true]. *)
Theorem log_returns_the_stored_entry (db : Collaborators) (now : Z)
    (o : AuditLogService.Options) (doc : AuditLog) :
  outcome (AuditLogService.log db now (Some o)) = Ok (Some doc)
  <-> (doc = AuditLogService.newAuditLog now o
       /\ (exists id, AuditLogService.userId o = Some id /\ castsToObjectId db id = true)
       /\ (exists a, AuditLogService.action o = Some a /\ In a AuditLogService.actionEnum)
       /\ AuditLog_insert db doc = Ok tt
       /\ log_timestamp doc = now
       /\ log_success doc = default true (AuditLogService.success o)).
Proof.
  rewrite log_outcome. unfold AuditLogService.save, AuditLogService.validate.
  cbn [AuditLogService.newAuditLog log_userId log_action].
  split.
  - destruct (AuditLogService.userId o) as [id |]; [| discriminate].
    destruct (castsToObjectId db id) eqn:Hcast; [| discriminate].
    destruct (AuditLogService.action o) as [a |]; [| discriminate].
    destruct (existsb (String.eqb a) AuditLogService.actionEnum) eqn:Henum; [| discriminate].
    destruct (AuditLog_insert db _) as [[] |] eqn:Hinsert; [| discriminate].
    intros [= <-]. split; [reflexivity |].
    split; [exists id; now split |].
    split; [exists a; split; [reflexivity | now apply existsb_eqb_In] |].
    split; [exact Hinsert |]. split; reflexivity.
  - intros (-> & (id & Hid & Hcast) & (a & Ha & Hin) & Hinsert & _).
    rewrite Hid, Hcast, Ha. apply existsb_eqb_In in Hin. rewrite Hin.
    now rewrite Hinsert.
Qed.

(** An entry whose action the schema does not list is refused before the
    write: the call reports the validation error on the console and resolves
    to [undefined], whatever the store would have done. *)
Lemma log_rejects_unlisted_action (db : Collaborators) (now : Z)
    (o : AuditLogService.Options) (id a : string) :
  AuditLogService.userId o = Some id ->
  AuditLogService.action o = Some a ->
  existsb (String.eqb a) AuditLogService.actionEnum = false ->
  exists reason,
    AuditLogService.log db now (Some o)
    = ([("Audit log error:"%string, ValidationError reason)], Ok None)
    /\ (castsToObjectId db id = true -> reason = "action is not a valid enum value"%string).
Proof.
  intros Hid Ha Henum.
  unfold AuditLogService.log, AuditLogService.save, AuditLogService.validate.
  cbn [AuditLogService.newAuditLog log_userId log_action].
  rewrite Hid, Ha, Henum.
  destruct (castsToObjectId db id); eexists; (split; [reflexivity |]); [reflexivity |].
  discriminate.
Qed.

(** X11. The audit entries of [assessRegistrationRisk] and of the rate-limit
    check never pass the schema: their actions
    (REGISTRATION_RISK_ASSESSMENT, REGISTRATION_RATE_LIMIT_EXCEEDED) are not
    in the enum of [action].  Each call that reaches its [log] resolves as
    usual and leaves one "Audit log error:" line with a validation error on
    the console: that of the enum when the user id is an ObjectId. *)
Theorem service_audit_entries_fail_validation :
  (forall (db : Collaborators) (now : Z) (userId eventId : string) (user : User)
          (event : Event),
      User_findById db userId = Ok (Some user) ->
      Event_findById db eventId = Ok (Some event) ->
      exists assessment reason,
        assessRegistrationRisk db now userId eventId
        = ([("Audit log error:"%string, ValidationError reason)], Ok assessment)
        /\ (castsToObjectId db userId = true ->
            reason = "action is not a valid enum value"%string))
  /\ (forall (db : Collaborators) (now : Z) (userId eventId : string) (count : nat),
         Event_countDocuments db userId (twentyFourHoursAgo now) = Ok count ->
         (10 <= count)%nat ->
         exists reason,
           checkRegistrationRateLimit db now userId eventId
           = ([("Audit log error:"%string, ValidationError reason)], Ok rateLimitExceeded)
           /\ (castsToObjectId db userId = true ->
               reason = "action is not a valid enum value"%string)).
Proof.
  split.
  - intros db now userId eventId user event Huser Hevent.
    unfold assessRegistrationRisk, bind, lift. rewrite Huser, Hevent. cbv zeta.
    match goal with
    | |- context [AuditLogService.log db now (Some ?o)] =>
        destruct (log_rejects_unlisted_action db now o userId
                    "REGISTRATION_RISK_ASSESSMENT" eq_refl eq_refl eq_refl)
          as (reason & -> & Hreason)
    end.
    eexists. exists reason. split; [reflexivity | exact Hreason].
  - intros db now userId eventId count Hcount Hmany.
    unfold checkRegistrationRateLimit, bind, lift. rewrite Hcount.
    rewrite (proj2 (Nat.leb_le 10 count) Hmany).
    match goal with
    | |- context [AuditLogService.log db now (Some ?o)] =>
        destruct (log_rejects_unlisted_action db now o userId
                    "REGISTRATION_RATE_LIMIT_EXCEEDED" eq_refl eq_refl eq_refl)
          as (reason & -> & Hreason)
    end.
    exists reason. split; [reflexivity | exact Hreason].
Qed.

Lemma service_audit_entries_fail_validation_witness :
  (exists assessment,
      assessRegistrationRisk (MemoryStore.collaborators (aliceStore [])) sampleNow alice gala
      = ([enumRejection], Ok assessment))
  /\ checkRegistrationRateLimit (MemoryStore.collaborators (registrationsStore 3600000))
       sampleNow alice gala
     = ([enumRejection], Ok rateLimitExceeded).
Proof.
  split.
  - destruct (proj1 service_audit_entries_fail_validation
                (MemoryStore.collaborators (aliceStore [])) sampleNow alice gala
                tenDayOldUser openEvent)
      as (assessment & reason & Hcall & Hreason);
      [vm_compute; reflexivity | vm_compute; reflexivity |].
    exists assessment. rewrite Hcall, Hreason; [reflexivity | vm_compute; reflexivity].
  - destruct (proj2 service_audit_entries_fail_validation
                (MemoryStore.collaborators (registrationsStore 3600000)) sampleNow alice gala
                12%nat)
      as (reason & Hcall & Hreason); [vm_compute; reflexivity | lia |].
    rewrite Hcall, Hreason; [reflexivity | vm_compute; reflexivity].
Defined.

End AuditEntries.

(** ** The scores of ThreatIntelligenceService *)

Section ThreatScores.
Import ThreatIntelligenceService.

(** X12. [calculateIPRiskScore] is [NaN] exactly when AbuseIPDB answered
    without an [abuseConfidenceScore]; otherwise it lies in [0, 10], and
    without an AbuseIPDB report it is at most 7: VirusTotal alone never
    gives the maximum. *)
Theorem ip_risk_score_is_NaN_or_in_range (abuseIPDB : option AbuseReport)
    (virusTotal : option VirusTotalReport) :
  (calculateIPRiskScore abuseIPDB virusTotal = None
   <-> exists report, abuseIPDB = Some report /\ abuseConfidenceScore report = None)
  /\ (forall score, calculateIPRiskScore abuseIPDB virusTotal = Some score ->
                    (0 <= score <= 10)%Q)
  /\ (forall score, abuseIPDB = None ->
                    calculateIPRiskScore abuseIPDB virusTotal = Some score ->
                    (score <= 7)%Q).
Proof.
  unfold calculateIPRiskScore, clamp, plus.
  split; [| split].
  - destruct abuseIPDB as [[public [confidence |] reports last] |];
      destruct virusTotal as [[urls downloads community] |]; cbn;
      split; try discriminate; eauto;
      intros (report & Hreport & Hmissing); try discriminate;
      injection Hreport as <-; discriminate.
  - destruct abuseIPDB as [[public [confidence |] reports last] |];
      destruct virusTotal as [[urls downloads community] |]; cbn;
      intros score; try discriminate; intros [= <-]; apply clamp_bounds.
  - intros score ->.
    destruct virusTotal as [[urls downloads community] |]; cbn;
      [| intros [= <-]; vm_compute; discriminate].
    destruct (above urls 5), (above downloads 3), (below community (-10));
      intros [= <-]; vm_compute; discriminate.
Qed.

(** The test of the detection ratio of a file that was scanned at least
    once, as a comparison of counts: the quotient has to reach the middle of
    the double of [0.3] and the next double. *)
Lemma detectionRatio_counts (a : ScanAttributes) (detected scans : Z) :
  total_detected a = Some detected -> total_scans a = Some scans -> 0 < scans ->
  detectionRatioAboveThirtyPercent a = true
  <-> 10808639105689191 * scans <= 36028797018963968 * detected.
Proof.
  intros Hdetected Hscans Hpos. unfold detectionRatioAboveThirtyPercent, aboveDouble_0_3.
  rewrite Hdetected, Hscans.
  destruct (Z.eqb_spec scans 0) as [-> | _]; [lia |].
  rewrite Qle_bool_iff.
  assert (Hpos' : (0 < inject_Z scans)%Q) by (rewrite <- (Zlt_Qlt 0); exact Hpos).
  assert (Hdiv : (inject_Z detected / inject_Z scans * inject_Z scans
                  == inject_Z detected)%Q) by (field; lra).
  rewrite Zle_Qle, !inject_Z_mult.
  change (inject_Z 10808639105689191) with 10808639105689191%Q.
  change (inject_Z 36028797018963968) with 36028797018963968%Q.
  split; intros H.
  - apply (Qmult_le_r _ _ _ Hpos') in H. rewrite Hdiv in H. lra.
  - apply (Qmult_le_r _ _ _ Hpos'). rewrite Hdiv. lra.
Qed.

(** Up to 6004799503160661 scans the rounding cannot be seen: the test is
    "more than three tenths". *)
Lemma detectionRatio_three_tenths (a : ScanAttributes) (detected scans : Z) :
  total_detected a = Some detected -> total_scans a = Some scans ->
  0 < scans <= 6004799503160661 ->
  detectionRatioAboveThirtyPercent a = true <-> 3 * scans < 10 * detected.
Proof.
  intros Hdetected Hscans Hrange.
  rewrite (detectionRatio_counts a detected scans Hdetected Hscans) by lia. lia.
Qed.

(** X13. [calculateFileRiskScore] takes three values only.  It is 10 exactly
    when the detection ratio of VirusTotal is above [0.3] and Hybrid
    Analysis calls the file malicious, 0 exactly when neither holds, and 5
    otherwise.  The ratio is a double: up to 6004799503160661 scans it is
    above [0.3] exactly when [3 * total_scans < 10 * total_detected]; beyond,
    a ratio just over three tenths can round to the double of [0.3] and not
    count, as 2700000000000001 detections in 9000000000000003 scans do. *)
Theorem file_risk_score_values (virusTotalResult : VirusTotalResult)
    (hybridAnalysisResult : HybridAnalysisResult) :
  let score := calculateFileRiskScore virusTotalResult hybridAnalysisResult in
  let detected :=
    exists a, attributes virusTotalResult = Some a
              /\ detectionRatioAboveThirtyPercent a = true in
  let malicious := verdict hybridAnalysisResult = Some "malicious"%string in
  ((score == 10)%Q <-> detected /\ malicious)
  /\ ((score == 0)%Q <-> ~ detected /\ ~ malicious)
  /\ ((score == 0)%Q \/ (score == 5)%Q \/ (score == 10)%Q)
  /\ (forall a found scans,
         attributes virusTotalResult = Some a ->
         total_detected a = Some found -> total_scans a = Some scans ->
         0 < scans <= 6004799503160661 ->
         (detected <-> 3 * scans < 10 * found))
  /\ (forall a found scans,
         attributes virusTotalResult = Some a ->
         total_detected a = Some found -> total_scans a = Some scans -> 0 < scans ->
         (detected <-> 10808639105689191 * scans <= 36028797018963968 * found))
  /\ (3 * 9000000000000003 < 10 * 2700000000000001
      /\ (calculateFileRiskScore
            {| attributes := Some {| total_detected := Some 2700000000000001%Z;
                                     total_scans := Some 9000000000000003%Z |} |}
            {| verdict := None |} == 0)%Q).
Proof.
  intros score detected malicious.
  assert (Hdetected : detected
                      <-> match attributes virusTotalResult with
                          | Some a => detectionRatioAboveThirtyPercent a = true
                          | None => False
                          end).
  { subst detected. destruct (attributes virusTotalResult) as [a |].
    - split; [intros (a' & [= <-] & H); exact H | eauto].
    - split; [intros (a' & [=] & _) | tauto]. }
  assert (Hmalicious : truthy (verdict hybridAnalysisResult)
                       && bool_decide (verdict hybridAnalysisResult = Some "malicious"%string)
                       = true <-> malicious).
  { subst malicious. destruct (verdict hybridAnalysisResult) as [s |]; cbn.
    - rewrite andb_true_iff, bool_decide_eq_true. split; [tauto |].
      intros [= ->]. split; reflexivity.
    - split; discriminate. }
  split; [| split; [| split; [| split; [| split]]]].
  4: { intros a found scans Ha Hfound Hscans Hrange. rewrite Hdetected, Ha.
       now apply detectionRatio_three_tenths. }
  4: { intros a found scans Ha Hfound Hscans Hpos. rewrite Hdetected, Ha.
       now apply detectionRatio_counts. }
  4: { split; [lia | vm_compute; reflexivity]. }
  all: subst score; unfold calculateFileRiskScore;
    try (rewrite Hdetected, <- Hmalicious); clear Hdetected Hmalicious detected malicious;
    destruct (attributes virusTotalResult) as [a |];
    [destruct (detectionRatioAboveThirtyPercent a) |];
    destruct (truthy (verdict hybridAnalysisResult));
    destruct (bool_decide (verdict hybridAnalysisResult = Some "malicious"%string));
    cbn [andb]; vm_compute; intuition discriminate.
Qed.

End ThreatScores.

(** ** Consolidated threat feeds *)

Section Consolidation.
Import ThreatIntelligenceService.

Lemma findIndex_bound (test : Threat -> bool) (self : list Threat) (i : nat) :
  findIndex test self = Some i -> (i < length self)%nat.
Proof.
  revert i. induction self as [| t rest IH]; intros i; cbn; [discriminate |].
  destruct (test t); [intros [= <-]; lia |].
  destruct (findIndex test rest) as [j |]; cbn; [| discriminate].
  intros [= <-]. specialize (IH j eq_refl). lia.
Qed.

Lemma findIndex_None (test : Threat -> bool) (self : list Threat) :
  findIndex test self = None <-> existsb test self = false.
Proof.
  induction self as [| t rest IH]; cbn; [tauto |].
  destruct (test t); cbn; [split; discriminate |].
  rewrite <- IH. destruct (findIndex test rest); cbn; split; congruence.
Qed.

Lemma findIndex_app (test : Threat -> bool) (before after : list Threat) :
  findIndex test (before ++ after)
  = match findIndex test before with
    | Some i => Some i
    | None => Nat.add (length before) <$> findIndex test after
    end.
Proof.
  induction before as [| t rest IH]; cbn.
  - now destruct (findIndex test after).
  - destruct (test t); [reflexivity |]. rewrite IH.
    destruct (findIndex test rest); [reflexivity |].
    now destruct (findIndex test after).
Qed.

Lemma sameId_refl (t : Threat) : sameId t t = true.
Proof. unfold sameId. now apply bool_decide_eq_true. Qed.

Lemma sameId_true (t u : Threat) : sameId t u = true <-> threat_id u = threat_id t.
Proof. unfold sameId. apply bool_decide_eq_true. Qed.

Lemma sameId_seen (t u : Threat) (seen : list Threat) :
  threat_id u = threat_id t -> existsb (sameId t) seen = existsb (sameId u) seen.
Proof.
  intros Hid. induction seen as [| w seen IH]; cbn; [reflexivity |].
  rewrite IH. f_equal. unfold sameId. now rewrite Hid.
Qed.

Lemma sameId_find (t u : Threat) (threats : list Threat) :
  threat_id u = threat_id t -> List.find (sameId t) threats = List.find (sameId u) threats.
Proof.
  intros Hid. induction threats as [| w rest IH]; cbn; [reflexivity |].
  rewrite IH. unfold sameId. now rewrite Hid.
Qed.

(** A threat is at the index that [findIndex] gives for its id exactly when
    no threat before it carries that id. *)
Lemma findIndex_first (t : Threat) (before after : list Threat) :
  bool_decide (findIndex (sameId t) (before ++ t :: after) = Some (length before))
  = negb (existsb (sameId t) before).
Proof.
  rewrite findIndex_app.
  destruct (findIndex (sameId t) before) as [i |] eqn:Hfound.
  - assert (Hseen : existsb (sameId t) before = true).
    { destruct (existsb (sameId t) before) eqn:Hseen; [reflexivity |].
      apply findIndex_None in Hseen. congruence. }
    rewrite Hseen. apply bool_decide_eq_false. intros [= ->].
    apply findIndex_bound in Hfound. lia.
  - apply findIndex_None in Hfound. rewrite Hfound. cbn. rewrite sameId_refl. cbn.
    apply bool_decide_eq_true. f_equal. lia.
Qed.

Lemma firstOfItsId_from (seen threats : list Threat) :
  List.map snd
    (List.filter
       (fun entry => bool_decide (findIndex (sameId entry.2) (seen ++ threats) = Some entry.1))
       (imap (fun i t => ((length seen + i)%nat, t)) threats))
  = keepUnseen seen threats.
Proof.
  revert seen. induction threats as [| t rest IH]; intros seen; [reflexivity |].
  rewrite imap_cons. cbn [List.filter fst snd].
  rewrite Nat.add_0_r, findIndex_first.
  assert (Hrest :
    List.map snd
      (List.filter
         (fun entry =>
            bool_decide (findIndex (sameId entry.2) (seen ++ t :: rest) = Some entry.1))
         (imap ((fun i t => ((length seen + i)%nat, t)) ∘ S) rest))
    = keepUnseen (seen ++ [t]) rest).
  { rewrite <- IH, <- app_assoc. cbn [app].
    do 2 f_equal. apply imap_ext.
    intros i u _. cbn. rewrite length_app. cbn. f_equal. lia. }
  cbn [keepUnseen]. destruct (existsb (sameId t) seen); cbn [negb List.map snd].
  - exact Hrest.
  - now rewrite Hrest.
Qed.

Lemma firstOfItsId_keepUnseen (threats : list Threat) :
  firstOfItsId threats = keepUnseen [] threats.
Proof. exact (firstOfItsId_from [] threats). Qed.

Lemma existsb_snoc (test : Threat -> bool) (seen : list Threat) (t : Threat) :
  existsb test (seen ++ [t]) = existsb test seen || test t.
Proof. rewrite existsb_app. cbn. now rewrite orb_false_r. Qed.

(** What [keepUnseen] keeps: the first threat of each id that was not seen. *)
Lemma keepUnseen_In (seen threats : list Threat) (t : Threat) :
  In t (keepUnseen seen threats)
  <-> existsb (sameId t) seen = false /\ List.find (sameId t) threats = Some t.
Proof.
  revert seen. induction threats as [| u rest IH]; intros seen; cbn [keepUnseen List.find].
  - cbn. split; [tauto | intros [_ [=]]].
  - destruct (sameId t u) eqn:Hsame.
    + apply sameId_true in Hsame.
      destruct (existsb (sameId u) seen) eqn:Hseen.
      * rewrite IH, existsb_snoc, (sameId_seen t u seen Hsame), Hseen. cbn.
        split; intros [[=] _].
      * cbn [In]. rewrite IH, existsb_snoc.
        assert (Htu : sameId t u = true) by now apply sameId_true.
        rewrite Htu, orb_true_r, (sameId_seen t u seen Hsame), Hseen.
        split; [intros [-> | [[=] _]]; auto | intros [_ [= ->]]; auto].
    + assert (Hdiff : u <> t).
      { intros ->. rewrite sameId_refl in Hsame. discriminate. }
      destruct (existsb (sameId u) seen); cbn [In];
        rewrite IH, existsb_snoc, Hsame, orb_false_r; tauto.
Qed.

Lemma keepUnseen_NoDup (seen threats : list Threat) :
  NoDup (List.map threat_id (keepUnseen seen threats)).
Proof.
  revert seen. induction threats as [| u rest IH]; intros seen; cbn [keepUnseen].
  - constructor.
  - destruct (existsb (sameId u) seen); [apply IH |].
    cbn [List.map]. constructor; [| apply IH].
    rewrite list_elem_of_In, in_map_iff. intros (w & Hid & Hin).
    apply keepUnseen_In in Hin. destruct Hin as [Hunseen _].
    rewrite existsb_snoc in Hunseen. apply orb_false_elim in Hunseen.
    destruct Hunseen as [_ Hsame].
    assert (Htrue : sameId w u = true) by (apply sameId_true; congruence).
    congruence.
Qed.

Lemma insertBySeverity_Permutation (threat : Threat) (sorted : list Threat) :
  Permutation (insertBySeverity threat sorted) (threat :: sorted).
Proof.
  induction sorted as [| t rest IH]; cbn; [reflexivity |].
  destruct (severity threat <? severity t); [| reflexivity].
  rewrite IH. apply perm_swap.
Qed.

Lemma sortBySeverity_Permutation (threats : list Threat) :
  Permutation (sortBySeverity threats) threats.
Proof.
  induction threats as [| t rest IH]; cbn; [reflexivity |].
  fold (sortBySeverity rest). rewrite insertBySeverity_Permutation. now constructor.
Qed.

Lemma sortBySeverity_In (threats : list Threat) (t : Threat) :
  In t (sortBySeverity threats) <-> In t threats.
Proof.
  split; apply Permutation_in;
    [| symmetry]; apply sortBySeverity_Permutation.
Qed.

Lemma insertBySeverity_sorted (threat : Threat) (sorted : list Threat) :
  StronglySorted severityAtLeast sorted ->
  StronglySorted severityAtLeast (insertBySeverity threat sorted).
Proof.
  induction 1 as [| t rest Hsorted IH Hall]; cbn.
  - repeat constructor.
  - destruct (Z.ltb_spec (severity threat) (severity t)) as [Hlt | Hge].
    + constructor; [exact IH |].
      apply (Permutation_Forall (Permutation_sym (insertBySeverity_Permutation threat rest))).
      constructor; [unfold severityAtLeast; lia | exact Hall].
    + constructor; [now constructor |].
      constructor; [exact Hge |].
      eapply Forall_impl; [exact Hall |].
      unfold severityAtLeast. intros w Hw. lia.
Qed.

Lemma sortBySeverity_sorted (threats : list Threat) :
  StronglySorted severityAtLeast (sortBySeverity threats).
Proof.
  induction threats as [| t rest IH]; cbn; [constructor |].
  now apply insertBySeverity_sorted.
Qed.

(** X14. [consolidateThreatIntelligence] keeps, of the threats that share an
    id, the first one of the global feeds followed by the emerging threats:
    a threat is in the result exactly when it is the first of its id, so no
    two results share an id, every id of the input is still there, and an
    emerging threat never replaces the global threat of its id. *)
Theorem consolidation_keeps_first_of_each_id (globalFeeds emergingThreats : list Threat) :
  let consolidated := consolidateThreatIntelligence globalFeeds emergingThreats in
  (forall t, In t consolidated
             <-> List.find (sameId t) (globalFeeds ++ emergingThreats) = Some t)
  /\ NoDup (List.map threat_id consolidated)
  /\ (forall t, In t (globalFeeds ++ emergingThreats) ->
                 exists u, In u consolidated /\ threat_id u = threat_id t)
  /\ (forall t u, In t globalFeeds -> In u consolidated -> threat_id u = threat_id t ->
                   In u globalFeeds).
Proof.
  intros consolidated.
  assert (Hin : forall t, In t consolidated
                          <-> List.find (sameId t) (globalFeeds ++ emergingThreats) = Some t).
  { intros t. subst consolidated. unfold consolidateThreatIntelligence.
    rewrite sortBySeverity_In, firstOfItsId_keepUnseen, keepUnseen_In. cbn. tauto. }
  split; [exact Hin |]. split; [| split].
  - subst consolidated. unfold consolidateThreatIntelligence.
    rewrite (sortBySeverity_Permutation _), firstOfItsId_keepUnseen.
    apply keepUnseen_NoDup.
  - intros t Ht.
    destruct (List.find (sameId t) (globalFeeds ++ emergingThreats)) as [u |] eqn:Hfind.
    + pose proof (find_some _ _ Hfind) as [_ Hsame]. apply sameId_true in Hsame.
      exists u. split; [| exact Hsame]. apply Hin.
      now rewrite <- (sameId_find t u _ Hsame).
    + pose proof (find_none _ _ Hfind t Ht) as Hnone.
      rewrite sameId_refl in Hnone. discriminate.
  - intros t u Ht Hu Hid. apply Hin in Hu.
    assert (Hfirst : exists w, List.find (sameId u) globalFeeds = Some w).
    { destruct (List.find (sameId u) globalFeeds) as [w |] eqn:Hfind; [eauto |].
      pose proof (find_none _ _ Hfind t Ht) as Hnone.
      assert (Htrue : sameId u t = true) by (apply sameId_true; congruence).
      congruence. }
    destruct Hfirst as (w & Hw).
    assert (Happ : List.find (sameId u) (globalFeeds ++ emergingThreats) = Some w).
    { clear -Hw. induction globalFeeds as [| x rest IH]; cbn in *; [discriminate |].
      destruct (sameId u x); [exact Hw | now apply IH]. }
    rewrite Happ in Hu. injection Hu as ->. now apply find_some in Hw.
Qed.

(** X15. The result of [consolidateThreatIntelligence] is ranked: no threat
    comes before one of higher severity, and ranking only reorders the
    threats that the deduplication kept. *)
Theorem consolidation_ranks_by_severity (globalFeeds emergingThreats : list Threat) :
  StronglySorted severityAtLeast (consolidateThreatIntelligence globalFeeds emergingThreats)
  /\ Permutation (consolidateThreatIntelligence globalFeeds emergingThreats)
                 (firstOfItsId (globalFeeds ++ emergingThreats))
  /\ (length (consolidateThreatIntelligence globalFeeds emergingThreats)
      <= length globalFeeds + length emergingThreats)%nat.
Proof.
  unfold consolidateThreatIntelligence. split; [apply sortBySeverity_sorted |].
  split; [apply sortBySeverity_Permutation |].
  rewrite (Permutation_length (sortBySeverity_Permutation _)).
  unfold firstOfItsId. rewrite length_map.
  etransitivity; [apply filter_length_le |].
  now rewrite length_imap, length_app.
Qed.

End Consolidation.

(** ** Callers of the detectors and of the providers *)

Section Callers.
Import FraudDetectionService ThreatIntelligenceService.

Lemma outcome_recover {A} (label : string) (fallback : A) (m : M A) :
  outcome (recover label fallback m)
  = Ok match outcome m with
       | Ok a => a
       | Err _ => fallback
       end.
Proof. now destruct m as [console [a | e]]. Qed.

Lemma recover_console {A} (label : string) (fallback : A) (m : M A) (e : JsError) :
  outcome m = Err e -> In (label, e) (fst (recover label fallback m)).
Proof.
  destruct m as [console [a | e']]; cbn; [discriminate |].
  intros [= ->]. apply in_or_app. right. now left.
Qed.

Lemma rethrow_console {A} (label : string) (m : M A) (e : JsError) :
  outcome m = Err e -> In (label, e) (fst (rethrow label m)).
Proof.
  destruct m as [console [a | e']]; cbn; [discriminate |].
  intros [= ->]. apply in_or_app. right. now left.
Qed.

(** X16. [checkIPReputation] fails open.  As long as its audit call does not
    throw (and [AuditLogService.log] never does), it returns a report for
    every address: a provider that fails or answers without data is reported
    as [null], and when both are, the address gets the risk score 0. *)
Theorem ip_reputation_fails_open (providers : Providers)
    (audit : IpReputation -> M (option AuditLog)) (address : string) :
  (forall report, exists entry, outcome (audit report) = Ok entry) ->
  exists report,
    outcome (checkIPReputation providers audit address) = Ok report
    /\ ipAddress report = address
    /\ riskScore report = calculateIPRiskScore (abuseIPDB report) (virusTotal report)
    /\ abuseIPDB report
       = match AbuseIPDB_check providers address with
         | Ok (Some answer) => Some answer
         | _ => None
         end
    /\ virusTotal report
       = match VirusTotal_ipAddress providers address with
         | Ok (Some answer) => Some answer
         | _ => None
         end
    /\ (abuseIPDB report = None -> virusTotal report = None -> riskScore report = Some 0%Q).
Proof.
  intros Haudit. unfold checkIPReputation, checkAbuseIPDB, checkVirusTotalIP.
  autorewrite with outcome. rewrite outcome_Promise_all2_pending, !outcome_recover.
  cbv beta iota zeta. autorewrite with outcome.
  match goal with
  | |- context [outcome (audit ?report)] =>
      destruct (Haudit report) as [entry Hentry]; rewrite Hentry; exists report
  end.
  cbn [ipAddress abuseIPDB virusTotal riskScore].
  repeat split.
  - destruct (AbuseIPDB_check providers address) as [[answer |] | e]; reflexivity.
  - destruct (VirusTotal_ipAddress providers address) as [[answer |] | e]; reflexivity.
  - intros -> ->. reflexivity.
Qed.

Lemma ip_reputation_fails_open_witness :
  exists report,
    outcome (checkIPReputation unreachableProviders
               (auditOn calmStore "IP_REPUTATION_CHECK") "203.0.113.7")
    = Ok report
    /\ abuseIPDB report = None /\ virusTotal report = None /\ riskScore report = Some 0%Q.
Proof.
  destruct (ip_reputation_fails_open unreachableProviders
              (auditOn calmStore "IP_REPUTATION_CHECK") "203.0.113.7"%string)
    as (report & Hreport & _ & _ & Habuse & Hvirus & Hscore).
  - intros report. eexists. vm_compute. reflexivity.
  - exists report. cbn in Habuse, Hvirus. auto.
Defined.

(** X17. [AlertService.checkFraudActivity] never raises an alert: its call
    of [detectIPBasedFraud] throws on every store, the error is caught and
    written to the console, and the list of alerts is empty whatever the
    audit log holds and whatever [detectAnomalies] finds. *)
Theorem fraud_alerts_are_never_raised (db : Collaborators) (now : Z)
    (detectAnomalies : M AnomalyResult) :
  outcome (AlertService.checkFraudActivity db now detectAnomalies) = Ok []
  /\ exists e, In ("Fraud activity alert generation error:"%string, e)
                  (fst (AlertService.checkFraudActivity db now detectAnomalies)).
Proof.
  unfold AlertService.checkFraudActivity.
  set (body := bind (Promise_all2 _ _) _).
  assert (Hbody : exists e, outcome body = Err e).
  { subst body. autorewrite with outcome.
    destruct (Promise_all2_rejects (Pending (detectIPBasedFraud db now))
                (Pending detectAnomalies)) as [e ->]; [| eauto].
    left. cbn [settlement]. rewrite detectIPBasedFraud_throws.
    destruct (AuditLog_paginate db (failedWindow now) 1 50 TimestampDescending); eauto. }
  destruct Hbody as [e He]. split.
  - now rewrite outcome_recover, He.
  - exists e. now apply recover_console.
Qed.

(** X18. [runComprehensiveFraudCheck] never returns an assessment: the
    [Promise.all] holds [detectIPBasedFraud], which rejects on every store,
    so the call logs "Comprehensive fraud check error:" and throws, for
    every user. *)
Theorem comprehensive_fraud_check_always_throws (db : Collaborators) (now : Z)
    (detectAnomalies : M AnomalyResult)
    (audit : ComprehensiveFraudCheck.OverallRiskAssessment -> M (option AuditLog))
    (userId : string) :
  exists e,
    outcome (ComprehensiveFraudCheck.runComprehensiveFraudCheck db now detectAnomalies
               audit userId) = Err e
    /\ In ("Comprehensive fraud check error:"%string, e)
          (fst (ComprehensiveFraudCheck.runComprehensiveFraudCheck db now detectAnomalies
                  audit userId)).
Proof.
  unfold ComprehensiveFraudCheck.runComprehensiveFraudCheck.
  set (body := bind (Promise_all3 _ _ _) _).
  assert (Hbody : exists e, outcome body = Err e).
  { subst body. autorewrite with outcome.
    destruct (Promise_all3_rejects (Settled (detectSuspiciousUserActivity db now userId))
                (Pending (detectIPBasedFraud db now)) (Pending detectAnomalies))
      as [e ->]; [| eauto].
    right. left. cbn [settlement]. rewrite detectIPBasedFraud_throws.
    destruct (AuditLog_paginate db (failedWindow now) 1 50 TimestampDescending); eauto. }
  destruct Hbody as [e He]. exists e. split.
  - now rewrite outcome_rethrow.
  - now apply rethrow_console.
Qed.

End Callers.

(** ** What a token is bound to *)

Section TokenBinding.
Import EventSecurityService.
Local Open Scope string_scope.

Lemma append_associative (a b c : string) : (a ++ b) ++ c = a ++ b ++ c.
Proof.
  induction a as [| x a IH]; [reflexivity |].
  change ((String x a ++ b) ++ c) with (String x ((a ++ b) ++ c)). now rewrite IH.
Qed.

Ltac strip_head H :=
  match type of H with
  | (?s ++ _ = ?s ++ _) => apply (append_inv_head s) in H
  end.

Lemma unescape_escape (c : ascii) (rest : string) :
  unescape (JSON.escape c ++ rest) = Some (c, rest).
Proof.
  destruct c as [[] [] [] [] [] [] [] []]; reflexivity.
Qed.

Lemma escape_not_quote (c : ascii) (rest rest' : string) :
  JSON.escape c ++ rest <> JSON.quote ++ rest'.
Proof.
  destruct c as [[] [] [] [] [] [] [] []]; discriminate.
Qed.

(** The text between the quotes can be read back: the closing quote is the
    first quote that is not escaped. *)
Lemma escape_all_inj (s s' rest rest' : string) :
  JSON.escape_all s ++ JSON.quote ++ rest = JSON.escape_all s' ++ JSON.quote ++ rest' ->
  s = s' /\ rest = rest'.
Proof.
  revert s'. induction s as [| c s IH]; intros [| c' s']; cbn [JSON.escape_all].
  - intros H. apply (append_inv_head JSON.quote) in H. now split.
  - rewrite append_associative. change ("" ++ ?x) with x. intros H. symmetry in H.
    now apply escape_not_quote in H.
  - rewrite append_associative. change ("" ++ ?x) with x. intros H.
    now apply escape_not_quote in H.
  - rewrite !append_associative. intros H.
    apply (f_equal unescape) in H. rewrite !unescape_escape in H.
    injection H as -> H. apply IH in H. destruct H as [-> ->]. now split.
Qed.

Lemma stringify_string_inj (s s' rest rest' : string) :
  JSON.stringify_string s ++ rest = JSON.stringify_string s' ++ rest' ->
  s = s' /\ rest = rest'.
Proof.
  unfold JSON.stringify_string. rewrite !append_associative. intros H.
  apply (append_inv_head JSON.quote) in H.
  now apply escape_all_inj.
Qed.

(** The text that is hashed determines the event, the user and the time. *)
Lemma tokenInput_inj (secret : option string) (p p' : Payload) :
  tokenInput secret p = tokenInput secret p' -> p = p'.
Proof.
  unfold tokenInput, stringify. intros H. apply append_inv_tail in H.
  do 3 strip_head H.
  apply stringify_string_inj in H. destruct H as [Hevent H].
  do 3 strip_head H.
  apply stringify_string_inj in H. destruct H as [Huser H].
  do 3 strip_head H.
  apply append_inv_tail, stringify_number_inj in H.
  destruct p, p'. cbn in *. congruence.
Qed.

(** X19. A token is bound to its event, its user and its millisecond: the
    hashed text determines all three, so [validateEventAccessToken] rejects
    the token of one registration when it is presented for another event,
    another user or at another time (two distinct texts with one SHA-256
    digest apart). *)
Theorem token_is_bound_to_event_user_and_time :
  (forall (secret : option string) (p p' : Payload),
      tokenInput secret p = tokenInput secret p' -> p = p')
  /\ (forall (secret : option string) (issuedAt now : Z) (eventId userId : string)
             (otherEvent otherUser : string),
         (otherEvent, otherUser, now) <> (eventId, userId, issuedAt) ->
         (SHA256.hex (tokenInput secret (payloadAt eventId userId issuedAt))
          = SHA256.hex (tokenInput secret (payloadAt otherEvent otherUser now)) ->
          tokenInput secret (payloadAt eventId userId issuedAt)
          = tokenInput secret (payloadAt otherEvent otherUser now)) ->
         validateEventAccessToken secret now
           (accessToken (generateEventAccessToken secret issuedAt eventId userId))
           otherEvent otherUser = false).
Proof.
  split; [exact tokenInput_inj |].
  intros secret issuedAt now eventId userId otherEvent otherUser Hother Hsha.
  unfold validateEventAccessToken, generateEventAccessToken. cbn [accessToken].
  apply String.eqb_neq. intros Hdigest. apply Hother.
  apply Hsha, tokenInput_inj in Hdigest. unfold payloadAt in Hdigest.
  now injection Hdigest as -> -> ->.
Qed.

Lemma token_is_bound_to_event_user_and_time_witness :
  validateEventAccessToken (Some "s3cret") 1700000000000
    (accessToken (generateEventAccessToken (Some "s3cret") 1700000000000 "e1" "u1"))
    "e2" "u1" = false
  /\ validateEventAccessToken (Some "s3cret") 1700000000000
       (accessToken (generateEventAccessToken (Some "s3cret") 1700000000000 "e1" "u1"))
       "e1" "u2" = false.
Proof.
  split; apply (proj2 token_is_bound_to_event_user_and_time);
    [discriminate | intros H; vm_compute in H; discriminate H
    | discriminate | intros H; vm_compute in H; discriminate H].
Defined.

End TokenBinding.

(** ** The shape of a token *)

Section TokenShape.
Import EventSecurityService.

Lemma round_length (state : list Z) (kw : Z * Z) :
  length state = 8%nat -> length (SHA256.round state kw) = 8%nat.
Proof.
  destruct state as [| a [| b [| c [| d [| e [| f [| g [| h [| i rest]]]]]]]]];
    try discriminate; reflexivity.
Qed.

Lemma rounds_length (schedule : list (Z * Z)) (state : list Z) :
  length state = 8%nat -> length (List.fold_left SHA256.round schedule state) = 8%nat.
Proof.
  revert state. induction schedule as [| kw rest IH]; intros state Hstate; [exact Hstate |].
  cbn [List.fold_left]. apply IH. now apply round_length.
Qed.

Lemma compress_length (hash block : list Z) :
  length hash = 8%nat -> length (SHA256.compress hash block) = 8%nat.
Proof.
  intros Hhash. unfold SHA256.compress.
  rewrite length_map, length_combine, rounds_length by exact Hhash. rewrite Hhash. reflexivity.
Qed.

Lemma digest_length (message : list Z) : length (SHA256.digest message) = 8%nat.
Proof.
  unfold SHA256.digest.
  generalize (SHA256.chunks (length (SHA256.pad message)) 64 (SHA256.pad message)).
  assert (Hstart : length SHA256.H0 = 8%nat) by reflexivity.
  revert Hstart. generalize SHA256.H0.
  intros hash Hhash blocks. revert hash Hhash.
  induction blocks as [| block rest IH]; intros hash Hhash; [exact Hhash |].
  cbn [List.fold_left]. apply IH. now apply compress_length.
Qed.

Lemma hex_words_length (words : list Z) :
  length (List.concat (List.map SHA256.hex_word words)) = (8 * length words)%nat.
Proof.
  induction words as [| w rest IH]; [reflexivity |].
  cbn [List.map List.concat length]. rewrite length_app, IH.
  unfold SHA256.hex_word. rewrite length_map, length_rev, length_seq. lia.
Qed.

Lemma string_of_list_ascii_length (l : list ascii) :
  String.length (string_of_list_ascii l) = length l.
Proof. induction l as [| c l IH]; cbn; [reflexivity | now rewrite IH]. Qed.

(** X21. [generateEventAccessToken] always returns a token of 64 characters
    (the hexadecimal SHA-256 digest) together with an expiry exactly 24
    hours after the clock of the call, whatever the ids and the secret. *)
Theorem token_is_64_characters_and_expires_in_24_hours (secret : option string) (now : Z)
    (eventId userId : string) :
  String.length (accessToken (generateEventAccessToken secret now eventId userId)) = 64%nat
  /\ expiresAt (generateEventAccessToken secret now eventId userId) - now = 86400000.
Proof.
  unfold generateEventAccessToken. cbn [accessToken expiresAt]. split; [| lia].
  unfold SHA256.hex.
  now rewrite string_of_list_ascii_length, hex_words_length, digest_length.
Qed.

End TokenShape.

(** ** Alerts and monitoring *)

Section Monitoring.
Import SystemMonitoringService AlertService ThreatIntelligenceService.

(** A percentage of a positive total, compared as counts. *)
Lemma exceeds_percentage (used total n : Z) :
  0 < total ->
  exceeds (times100 (divide used total)) (inject_Z n) = true <-> n * total < 100 * used.
Proof.
  intros Hpos. unfold divide.
  destruct (Z.eqb_spec total 0) as [-> | _]; [lia |].
  cbn [times100 exceeds]. rewrite Qlt_bool_iff.
  assert (Hpos' : (0 < inject_Z total)%Q) by (rewrite <- (Zlt_Qlt 0); exact Hpos).
  assert (Hdiv : (inject_Z used / inject_Z total * 100 * inject_Z total
                  == 100 * inject_Z used)%Q) by (field; lra).
  rewrite Zlt_Qlt, !inject_Z_mult. change (inject_Z 100) with 100%Q.
  split; intros H.
  - apply (Qmult_lt_r _ _ _ Hpos') in H. now rewrite Hdiv in H.
  - apply (Qmult_lt_r _ _ _ Hpos'). now rewrite Hdiv.
Qed.

(** X22. [checkSystemPerformance] never throws and never raises the CPU
    alert: [cpu.usage] is the object of [process.cpuUsage()], and an object
    is not above 80.  The list holds at most one alert, the memory alert,
    present exactly when more than 85% of the heap is used and CRITICAL
    exactly when more than 95% is; when the health report fails the list is
    empty. *)
Theorem performance_alerts_are_memory_alerts_only (toString : Number -> string) (now : Z)
    (process : result Process) :
  exists alerts,
    outcome (checkSystemPerformance toString now process) = Ok alerts
    /\ (length alerts <= 1)%nat
    /\ (forall alert, In alert alerts ->
                       alert_title alert = "High Memory Consumption"%string)
    /\ (forall p, process = Ok p -> 0 < heapTotal (process_memoryUsage p) ->
                   let used := heapUsed (process_memoryUsage p) in
                   let total := heapTotal (process_memoryUsage p) in
                   (alerts <> [] <-> 85 * total < 100 * used)
                   /\ (forall alert, In alert alerts ->
                                      (alert_severity alert = "CRITICAL"%string
                                       <-> 95 * total < 100 * used)))
    /\ (forall e, process = Err e -> alerts = []).
Proof.
  unfold checkSystemPerformance, getSystemHealth.
  rewrite outcome_recover. autorewrite with outcome.
  destruct process as [p | e]; autorewrite with outcome; cbv zeta;
    cbn [cpu_usage memory_usedPercentage CpuUsage_exceeds app].
  2: { exists []. repeat split; try (cbn; lia); try easy. }
  set (percentage := times100 _).
  pose proof (exceeds_percentage (heapUsed (process_memoryUsage p))
                (heapTotal (process_memoryUsage p)) 85) as H85.
  pose proof (exceeds_percentage (heapUsed (process_memoryUsage p))
                (heapTotal (process_memoryUsage p)) 95) as H95.
  fold percentage in H85, H95.
  change (inject_Z 85) with 85%Q in H85. change (inject_Z 95) with 95%Q in H95.
  destruct (exceeds percentage 85) eqn:Hmemory.
  - eexists. split; [reflexivity |]. split; [cbn; lia |]. split.
    + intros alert [<- | []]. reflexivity.
    + split; [| discriminate]. intros q [= <-] Hpos. cbv zeta. split.
      * split; [intros _; now apply H85 | discriminate].
      * intros alert [<- | []]. cbn [alert_severity].
        rewrite <- (H95 Hpos).
        destruct (exceeds percentage 95); split; congruence.
  - exists []. split; [reflexivity |]. split; [cbn; lia |]. split; [intros alert [] |].
    split; [| reflexivity]. intros q [= <-] Hpos. cbv zeta. split.
    + split; [congruence |]. intros Habove. apply H85 in Habove; [congruence | exact Hpos].
    + intros alert [].
Qed.

Lemma logEach_returns (audit : Alert -> M (option AuditLog)) (alerts : list Alert) :
  (forall alert, exists entry, outcome (audit alert) = Ok entry) ->
  outcome (logEach audit alerts) = Ok tt.
Proof.
  intros Haudit. induction alerts as [| alert rest IH]; [reflexivity |].
  cbn [logEach]. autorewrite with outcome.
  destruct (Haudit alert) as [entry ->]. exact IH.
Qed.

Lemma checkFraudActivity_outcome (db : Collaborators) (now : Z)
    (detectAnomalies : M AnomalyResult) :
  outcome (checkFraudActivity db now detectAnomalies) = Ok [].
Proof.
  unfold checkFraudActivity. rewrite outcome_recover. autorewrite with outcome.
  rewrite outcome_Promise_all2_pending, detectIPBasedFraud_throws.
  now destruct (AuditLog_paginate db (failedWindow now) 1 50 TimestampDescending).
Qed.

(** [checkSystemPerformance] resolves on every input. *)
Lemma checkSystemPerformance_returns (toString : Number -> string) (now : Z)
    (process : result Process) :
  exists alerts, outcome (checkSystemPerformance toString now process) = Ok alerts.
Proof. unfold checkSystemPerformance. rewrite outcome_recover. eauto. Qed.

(** X23. [runAlertMonitoring] reports what [checkSystemPerformance] found
    and nothing else, as long as the audit call of each alert does not
    throw: the fraud alerts that it appends are always the empty list. *)
Theorem alert_monitoring_reports_performance_alerts_only (toString : Number -> string)
    (db : Collaborators) (now : Z) (process : result Process)
    (detectAnomalies : M AnomalyResult) (audit : Alert -> M (option AuditLog)) :
  (forall alert, exists entry, outcome (audit alert) = Ok entry) ->
  outcome (runAlertMonitoring toString db now process detectAnomalies audit)
  = outcome (checkSystemPerformance toString now process).
Proof.
  intros Haudit. unfold runAlertMonitoring.
  rewrite outcome_recover. autorewrite with outcome.
  destruct (checkSystemPerformance_returns toString now process)
    as [alerts Halerts].
  rewrite outcome_Promise_all2_pending, Halerts, checkFraudActivity_outcome.
  cbv beta iota zeta. autorewrite with outcome. rewrite logEach_returns by exact Haudit.
  autorewrite with outcome. now rewrite app_nil_r.
Qed.

Lemma alert_monitoring_reports_performance_alerts_only_witness :
  outcome (runAlertMonitoring wholePercent (MemoryStore.collaborators calmStore) sampleNow
             (Ok busyProcess) (throw (StoreError "no connection"))
             (auditOn calmStore "SYSTEM_ALERT"))
  = outcome (checkSystemPerformance wholePercent sampleNow (Ok busyProcess)).
Proof.
  apply (alert_monitoring_reports_performance_alerts_only wholePercent
           (MemoryStore.collaborators calmStore) sampleNow (Ok busyProcess)
           (throw (StoreError "no connection")) (auditOn calmStore "SYSTEM_ALERT")).
  intros alert. eexists. vm_compute. reflexivity.
Defined.

(** X24. [runThreatMonitoring] always resolves to the empty list: both
    feeds are placeholders that return no threat, and when the audit call
    throws the error is caught and the empty list returned. *)
Theorem threat_monitoring_finds_nothing (audit : list Threat -> M (option AuditLog)) :
  outcome (runThreatMonitoring audit) = Ok [].
Proof.
  unfold runThreatMonitoring, fetchGlobalThreatFeeds, fetchEmergingThreats.
  rewrite outcome_recover. autorewrite with outcome.
  rewrite outcome_Promise_all2_settled. autorewrite with outcome.
  cbv beta iota zeta. autorewrite with outcome.
  change (consolidateThreatIntelligence [] []) with (@nil Threat).
  now destruct (outcome (audit [])).
Qed.

End Monitoring.

(** ** The threat intelligence endpoint *)

Section ThreatIntelligenceEndpoint.
Import FraudDetectionService AdminDashboardController.

(** X25. The handler [getThreatIntelligence] never sends the report: it
    awaits [detectIPBasedFraud], which always throws, so on every store it
    answers with status 500 and the message "Error generating threat
    intelligence". *)
Theorem threat_intelligence_endpoint_answers_500 (db : Collaborators) (now : Z)
    (detectAnomalies : M AnomalyResult)
    (securityRecommendations : M (list Recommendation)) :
  exists error,
    outcome (getThreatIntelligence db now detectAnomalies securityRecommendations)
    = Ok {| status := 500;
            body := Failure "Error generating threat intelligence" error |}.
Proof.
  unfold getThreatIntelligence.
  set (attempt := bind (Promise_all3 _ _ _) _).
  assert (Hattempt : exists e, outcome attempt = Err e).
  { subst attempt. autorewrite with outcome.
    destruct (Promise_all3_rejects (Pending (detectIPBasedFraud db now))
                (Pending detectAnomalies) (Settled securityRecommendations))
      as [e ->]; [| eauto].
    left. cbn [settlement]. rewrite detectIPBasedFraud_throws.
    destruct (AuditLog_paginate db (failedWindow now) 1 50 TimestampDescending); eauto. }
  destruct Hattempt as [e He]. exists (message_of e).
  destruct attempt as [console [sent | e']]; cbn in He |- *; congruence.
Qed.

End ThreatIntelligenceEndpoint.
